(** * money-pooling-app: the Convex schema and the root layout

    A shallow embedding of [convex/schema.ts] (validators, tables, indexes)
    and of [app/layout.tsx] (page metadata and the root element tree),
    with the properties the specification states about them. *)

From Stdlib Require Import List String Ascii Bool ZArith NArith Lia.
Import ListNotations.
Open Scope string_scope.
Open Scope list_scope.

(** ** Values

    The values a document can hold.  A number is a float64 on the platform;
    no validator of this schema inspects a number's payload, so the model
    carries an integer (amounts are kept in the smallest currency unit).
    A document id is a string at run time that encodes the table it belongs
    to: [VId] keeps the table name apart from the key. *)

Unset Elimination Schemes.
Inductive value : Type :=
| VNull
| VBoolean (b : bool)
| VNumber (n : Z)
| VString (s : string)
| VId (tableName : string) (key : N)
| VArray (items : list value)
| VObject (fields : list (string * value)).
Set Elimination Schemes.

Definition document := list (string * value).

(** Field access on an object: the first binding of the key, [None] when the
    field is absent ([undefined] in the source language). *)
Fixpoint getField {A : Type} (k : string) (o : list (string * A)) : option A :=
  match o with
  | [] => None
  | (k', x) :: rest => if String.eqb k k' then Some x else getField k rest
  end.

Definition hasKey {A : Type} (k : string) (o : list (string * A)) : bool :=
  match getField k o with Some _ => true | None => false end.

(** Induction over values that reaches inside arrays and objects. *)
Section value_induction.
Variable P : value -> Prop.
Hypothesis Hnull : P VNull.
Hypothesis Hbool : forall b, P (VBoolean b).
Hypothesis Hnum : forall n, P (VNumber n).
Hypothesis Hstr : forall s, P (VString s).
Hypothesis Hid : forall t k, P (VId t k).
Hypothesis Harr : forall items, Forall P items -> P (VArray items).
Hypothesis Hobj :
  forall fields, Forall (fun kv => P (snd kv)) fields -> P (VObject fields).

Fixpoint value_ind (x : value) : P x :=
  match x with
  | VNull => Hnull
  | VBoolean b => Hbool b
  | VNumber n => Hnum n
  | VString s => Hstr s
  | VId t k => Hid t k
  | VArray items =>
      Harr items
        ((fix all (l : list value) : Forall P l :=
            match l with
            | [] => Forall_nil P
            | y :: ys => Forall_cons y (value_ind y) (all ys)
            end) items)
  | VObject fields =>
      Hobj fields
        ((fix all (l : list (string * value))
            : Forall (fun kv => P (snd kv)) l :=
            match l with
            | [] => Forall_nil _
            | kv :: ys => Forall_cons kv (value_ind (snd kv)) (all ys)
            end) fields)
  end.
End value_induction.

(** Structural equality of values, as used when an index key is compared. *)
Fixpoint value_eqb (a b : value) : bool :=
  match a, b with
  | VNull, VNull => true
  | VBoolean x, VBoolean y => Bool.eqb x y
  | VNumber x, VNumber y => Z.eqb x y
  | VString x, VString y => String.eqb x y
  | VId t x, VId u y => String.eqb t u && N.eqb x y
  | VArray xs, VArray ys =>
      (fix go (l : list value) (m : list value) : bool :=
         match l, m with
         | [], [] => true
         | x :: l', y :: m' => value_eqb x y && go l' m'
         | _, _ => false
         end) xs ys
  | VObject xs, VObject ys =>
      (fix go (l : list (string * value)) (m : list (string * value)) : bool :=
         match l, m with
         | [], [] => true
         | (k, x) :: l', (k', y) :: m' =>
             String.eqb k k' && value_eqb x y && go l' m'
         | _, _ => false
         end) xs ys
  | _, _ => false
  end.

Definition field_eqb (a b : option value) : bool :=
  match a, b with
  | None, None => true
  | Some x, Some y => value_eqb x y
  | _, _ => false
  end.

(** ** Validators ([convex/values])

    The constructors are the ones [schema.ts] calls on [v]; a literal is a
    string literal, the only kind the schema uses. *)
Module v.
Unset Elimination Schemes.
Inductive validator : Type :=
| string
| number
| boolean
| any
| id (tableName : String.string)
| literal (s : String.string)
| union (members : list validator)
| object (fields : list (String.string * validator))
| array (element : validator)
| optional (inner : validator).
Set Elimination Schemes.
End v.
Abbreviation validator := v.validator.

Definition isOptional (t : validator) : bool :=
  match t with v.optional _ => true | _ => false end.

(** Modelled from the spec: the platform's check of a value against a
    validator, which [schema.ts] imports and does not define.  It checks
    field presence and type and enumerated-literal membership: a field may be
    missing only when it is declared [v.optional], and an object may hold no
    field that is not declared.  An id is a string at run time, so
    [v.string] admits it; [v.id] admits only an id of the named table. *)
Fixpoint validate (t : validator) (x : value) {struct t} : bool :=
  match t with
  | v.string => match x with VString _ | VId _ _ => true | _ => false end
  | v.number => match x with VNumber _ => true | _ => false end
  | v.boolean => match x with VBoolean _ => true | _ => false end
  | v.any => true
  | v.id tbl => match x with VId tbl' _ => String.eqb tbl tbl' | _ => false end
  | v.literal s => match x with VString s' => String.eqb s s' | _ => false end
  | v.union members => existsb (fun m => validate m x) members
  | v.object fields =>
      match x with
      | VObject o =>
          forallb
            (fun kf =>
               let '(k, ft) := kf in
               match getField k o with
               | Some y => validate ft y
               | None => isOptional ft
               end) fields
          && forallb (fun kv => hasKey (fst kv) fields) o
      | _ => false
      end
  | v.array element =>
      match x with VArray items => forallb (validate element) items | _ => false end
  | v.optional inner => validate inner x
  end.

(** ** Tables and indexes ([convex/server]) *)
Record table : Type := {
  fields : list (string * validator);
  indexes : list (string * list string)
}.

Definition defineTable (fs : list (string * validator)) : table :=
  {| fields := fs; indexes := [] |}.

Definition index (name : string) (keys : list string) (t : table) : table :=
  {| fields := fields t; indexes := indexes t ++ [(name, keys)] |}.

Definition schema := list (string * table).
Definition defineSchema (tables : list (string * table)) : schema := tables.

Notation "t |> f" := (f t) (at level 68, left associativity, only parsing).

Definition validateDocument (t : table) (d : document) : bool :=
  validate (v.object (fields t)) (VObject d).

(** ** The schema ([convex/schema.ts]) *)

Definition userRoles : validator :=
  v.union
    [ v.literal "PlatformAdmin";
      v.literal "TenantAdmin_Manager";
      v.literal "TenantAdmin_HR";
      v.literal "TenantAdmin_Sales";
      v.literal "TenantAdmin_Marketing";
      v.literal "TenantAdmin_Support";
      v.literal "TenantAdmin_Finance";
      v.literal "RegularUser" ].

Definition transactionTypes : validator :=
  v.union
    [ v.literal "Deposit";
      v.literal "Withdrawal";
      v.literal "GameEntry";
      v.literal "GamePayout";
      v.literal "CommissionEarned";
      v.literal "ReferralBonus" ].

Definition paymentRequestStatus : validator :=
  v.union [ v.literal "Pending"; v.literal "Verified"; v.literal "Rejected" ].

Definition gameStatus : validator :=
  v.union
    [ v.literal "Pending";
      v.literal "Open";
      v.literal "Filling";
      v.literal "Full";
      v.literal "Active";
      v.literal "Completed";
      v.literal "Cancelled" ].

Definition notificationChannels : validator :=
  v.union [ v.literal "InApp"; v.literal "Telegram"; v.literal "Email" ].

Definition referralCampaignStatus : validator :=
  v.union [ v.literal "Active"; v.literal "Paused"; v.literal "Completed" ].

Definition users : table :=
  defineTable
    [ ("clerkId", v.optional v.string);
      ("telegramId", v.optional v.string);
      ("telegramUsername", v.optional v.string);
      ("name", v.string);
      ("email", v.optional v.string);
      ("passwordHash", v.optional v.string);
      ("role", userRoles);
      ("tenantId", v.optional (v.id "tenants"));
      ("profilePictureUrl", v.optional v.string);
      ("lastLogin", v.number);
      ("isActive", v.boolean);
      ("onboardingCompleted", v.boolean);
      ("telegramNotificationsEnabled", v.boolean);
      ("inAppNotificationsEnabled", v.boolean);
      ("referralCode", v.string);
      ("referredBy", v.optional v.string) ]
  |> index "by_clerkId" ["clerkId"]
  |> index "by_telegramId" ["telegramId"]
  |> index "by_email" ["email"]
  |> index "by_role" ["role"]
  |> index "by_tenantId" ["tenantId"].

Definition tenants : table :=
  defineTable
    [ ("name", v.string);
      ("status",
        v.union [ v.literal "Active"; v.literal "Suspended"; v.literal "Pending" ]);
      ("managerEmail", v.string);
      ("settings",
        v.object
          [ ("commissionRate", v.number);
            ("paymentProvider", v.optional v.string);
            ("paymentProviderConfig", v.optional v.any) ]) ]
  |> index "by_name" ["name"]
  |> index "by_status" ["status"].

Definition employees : table :=
  defineTable
    [ ("userId", v.id "users");
      ("tenantId", v.id "tenants");
      ("role", userRoles);
      ("isActive", v.boolean) ]
  |> index "by_userId" ["userId"]
  |> index "by_tenantId" ["tenantId"]
  |> index "by_tenantId_userId" ["tenantId"; "userId"]
  |> index "by_tenantId_role" ["tenantId"; "role"].

Definition games : table :=
  defineTable
    [ ("tenantId", v.id "tenants");
      ("name", v.string);
      ("entryFee", v.number);
      ("maxPlayers", v.number);
      ("description", v.optional v.string);
      ("status", gameStatus);
      ("currentPlayers", v.number);
      ("participants",
        v.array
          (v.object
             [ ("userId", v.id "users");
               ("selectedNumber", v.number);
               ("joinedAt", v.number);
               ("isWinner", v.optional v.boolean) ]));
      ("startTime", v.optional v.number);
      ("endTime", v.optional v.number);
      ("winnerId", v.optional (v.id "users"));
      ("winningNumber", v.optional v.number);
      ("commissionEarned", v.optional v.number) ]
  |> index "by_tenantId" ["tenantId"]
  |> index "by_status" ["status"]
  |> index "by_tenantId_status" ["tenantId"; "status"].

Definition gameTemplates : table :=
  defineTable
    [ ("tenantId", v.id "tenants");
      ("name", v.string);
      ("defaultEntryFee", v.number);
      ("defaultMaxPlayers", v.number);
      ("description", v.optional v.string) ]
  |> index "by_tenantId" ["tenantId"].

Definition wallets : table :=
  defineTable
    [ ("ownerId", v.id "users");
      ("tenantId", v.optional (v.id "tenants"));
      ("balance", v.number);
      ("type",
        v.union [ v.literal "User"; v.literal "Tenant"; v.literal "Platform" ]) ]
  |> index "by_ownerId" ["ownerId"]
  |> index "by_tenantId" ["tenantId"]
  |> index "by_type" ["type"]
  |> index "by_ownerId_type" ["ownerId"; "type"].

Definition transactions : table :=
  defineTable
    [ ("userId", v.optional (v.id "users"));
      ("tenantId", v.optional (v.id "tenants"));
      ("type", transactionTypes);
      ("amount", v.number);
      ("description", v.string);
      ("status",
        v.union
          [ v.literal "Pending"; v.literal "Completed";
            v.literal "Failed"; v.literal "Reversed" ]);
      ("relatedGameId", v.optional (v.id "games"));
      ("relatedPaymentId", v.optional (v.id "payments"));
      ("relatedTransactionId", v.optional (v.id "transactions")) ]
  |> index "by_userId" ["userId"]
  |> index "by_tenantId" ["tenantId"]
  |> index "by_type" ["type"]
  |> index "by_status" ["status"]
  |> index "by_userId_type" ["userId"; "type"]
  |> index "by_tenantId_type" ["tenantId"; "type"].

Definition payments : table :=
  defineTable
    [ ("userId", v.id "users");
      ("tenantId", v.id "tenants");
      ("amount", v.number);
      ("screenshotId", v.id "_storage");
      ("status", paymentRequestStatus);
      ("paymentMethod", v.string);
      ("referenceCode", v.string);
      ("verificationNotes", v.optional v.string);
      ("verifiedBy", v.optional (v.id "users"));
      ("verifiedAt", v.optional v.number) ]
  |> index "by_userId" ["userId"]
  |> index "by_tenantId" ["tenantId"]
  |> index "by_status" ["status"]
  |> index "by_tenantId_status" ["tenantId"; "status"].

Definition notifications : table :=
  defineTable
    [ ("userId", v.id "users");
      ("tenantId", v.optional (v.id "tenants"));
      ("type",
        v.union
          [ v.literal "GameUpdate"; v.literal "Wallet";
            v.literal "System"; v.literal "Marketing" ]);
      ("title", v.string);
      ("message", v.string);
      ("isRead", v.boolean);
      ("channel", notificationChannels);
      ("relatedEntityId", v.optional (v.id "games")) ]
  |> index "by_userId" ["userId"]
  |> index "by_tenantId" ["tenantId"]
  |> index "by_userId_isRead" ["userId"; "isRead"]
  |> index "by_tenantId_isRead" ["tenantId"; "isRead"].

Definition auditLogs : table :=
  defineTable
    [ ("actorId", v.id "users");
      ("actorRole", userRoles);
      ("tenantId", v.optional (v.id "tenants"));
      ("actionType", v.string);
      ("resourceType", v.string);
      ("resourceId", v.optional (v.id "any"));
      ("details", v.any) ]
  |> index "by_actorId" ["actorId"]
  |> index "by_tenantId" ["tenantId"]
  |> index "by_actionType" ["actionType"]
  |> index "by_resourceId" ["resourceId"]
  |> index "by_creationTime" ["_creationTime"].

Definition platformSettings : table :=
  defineTable
    [ ("key", v.string);
      ("value", v.any);
      ("description", v.optional v.string) ]
  |> index "by_key" ["key"].

Definition commissionOverrides : table :=
  defineTable
    [ ("tenantId", v.id "tenants");
      ("rate", v.number);
      ("startDate", v.number);
      ("endDate", v.optional v.number) ]
  |> index "by_tenantId" ["tenantId"]
  |> index "by_startDate" ["startDate"].

Definition referralCampaigns : table :=
  defineTable
    [ ("tenantId", v.id "tenants");
      ("name", v.string);
      ("code", v.string);
      ("status", referralCampaignStatus);
      ("rewardType", v.union [ v.literal "FlatAmount"; v.literal "Percentage" ]);
      ("rewardValue", v.number);
      ("minReferredDeposit", v.optional v.number);
      ("startDate", v.number);
      ("endDate", v.optional v.number);
      ("description", v.optional v.string) ]
  |> index "by_tenantId" ["tenantId"]
  |> index "by_code" ["code"].

Definition supportTickets : table :=
  defineTable
    [ ("userId", v.id "users");
      ("tenantId", v.optional (v.id "tenants"));
      ("subject", v.string);
      ("message", v.string);
      ("status", v.union [ v.literal "Open"; v.literal "Pending"; v.literal "Closed" ]);
      ("priority", v.union [ v.literal "Low"; v.literal "Medium"; v.literal "High" ]);
      ("assignedTo", v.optional (v.id "users"));
      ("replies",
        v.array
          (v.object
             [ ("userId", v.id "users");
               ("message", v.string);
               ("timestamp", v.number) ]));
      ("attachments", v.optional (v.array (v.id "_storage"))) ]
  |> index "by_userId" ["userId"]
  |> index "by_tenantId" ["tenantId"]
  |> index "by_status" ["status"]
  |> index "by_assignedTo" ["assignedTo"].

Definition appSchema : schema :=
  defineSchema
    [ ("users", users);
      ("tenants", tenants);
      ("employees", employees);
      ("games", games);
      ("gameTemplates", gameTemplates);
      ("wallets", wallets);
      ("transactions", transactions);
      ("payments", payments);
      ("notifications", notifications);
      ("auditLogs", auditLogs);
      ("platformSettings", platformSettings);
      ("commissionOverrides", commissionOverrides);
      ("referralCampaigns", referralCampaigns);
      ("supportTickets", supportTickets) ].

(** ** Stored documents, writes, reads and index lookups *)

Record row : Type := {
  rowTable : string;
  rowKey : N;
  rowCreationTime : Z;
  rowFields : document
}.

Record database : Type := {
  nextKey : N;
  clock : Z;
  rows : list row
}.

Definition emptyDatabase : database :=
  {| nextKey := 0%N; clock := 0%Z; rows := [] |}.

(** Every stored key was handed out by an earlier write. *)
Definition wellFormed (db : database) : bool :=
  forallb (fun r => N.ltb (rowKey r) (nextKey db)) (rows db).

(** Storing a record: it gets the next identity of the store and the
    current time as its creation time. *)
Definition store (db : database) (tableName : string) (d : document)
    : value * database :=
  (VId tableName (nextKey db),
   {| nextKey := N.succ (nextKey db);
      clock := Z.succ (clock db);
      rows := rows db ++
        [ {| rowTable := tableName;
             rowKey := nextKey db;
             rowCreationTime := clock db;
             rowFields := d |} ] |}).

(** Modelled from the spec: the write of a record, which the hosted backend
    performs and this repository does not define.  A record that violates the
    field shapes its table declares fails the write; an accepted record is
    stored under a generated identity with its creation timestamp.  The
    schema constrains only the tables it declares: a record of any other
    table is stored unchecked. *)
Definition insert (s : schema) (db : database) (tableName : string)
    (d : document) : option (value * database) :=
  match getField tableName s with
  | None => Some (store db tableName d)
  | Some t =>
      if validateDocument t d then Some (store db tableName d) else None
  end.

(** Modelled from the spec: what a read returns for a stored record, its
    fields as written together with the generated identity and the creation
    timestamp. *)
Definition readDocument (r : row) : document :=
  rowFields r ++
  [ ("_id", VId (rowTable r) (rowKey r));
    ("_creationTime", VNumber (rowCreationTime r)) ].

Definition isRow (tableName : string) (key : N) (r : row) : bool :=
  String.eqb (rowTable r) tableName && N.eqb (rowKey r) key.

(** Modelled from the spec: the read of a record by its identity. *)
Definition get (db : database) (id : value) : option document :=
  match id with
  | VId tableName key =>
      option_map readDocument (find (isRow tableName key) (rows db))
  | _ => None
  end.

Definition tableDocuments (db : database) (tableName : string) : list document :=
  map readDocument
    (filter (fun r => String.eqb (rowTable r) tableName) (rows db)).

(** The key tuple of a document under an index: the values of the index's
    fields, in order; an absent field contributes [None]. *)
Definition indexKey (keys : list string) (d : document) : list (option value) :=
  map (fun f => getField f d) keys.

Fixpoint key_eqb (a b : list (option value)) : bool :=
  match a, b with
  | [], [] => true
  | x :: a', y :: b' => field_eqb x y && key_eqb a' b'
  | _, _ => false
  end.

(** Modelled from the spec: the equality lookup through a declared index,
    which the hosted backend performs.  The lookup names a table and one of
    its indexes and gives values for the index fields in their order: one per
    field for the exact key tuple, fewer for a lookup by a prefix of the
    tuple.  An undeclared table or index, or more values than the index has
    fields, is an error. *)
Definition withIndex (s : schema) (db : database) (tableName indexName : string)
    (key : list (option value)) : option (list document) :=
  match getField tableName s with
  | None => None
  | Some t =>
      match getField indexName (indexes t) with
      | None => None
      | Some keys =>
          if Nat.leb (List.length key) (List.length keys) then
            Some (filter
                    (fun d =>
                       key_eqb (firstn (List.length key) (indexKey keys d)) key)
                    (tableDocuments db tableName))
          else None
      end
  end.

(** [d] is what a read returns for a record stored in the table. *)
Definition storedIn (db : database) (tableName : string) (d : document) : Prop :=
  exists r, In r (rows db) /\ rowTable r = tableName /\ d = readDocument r.

(** ** The root layout ([app/layout.tsx]) *)

Module SiteConfig.
Record t : Type := { name : string; description : string }.
End SiteConfig.

Module Metadata.
Record Title : Type := { default : string; template : string }.
Record Icons : Type := { icon : string }.
Record t : Type := { title : Title; description : string; icons : Icons }.
End Metadata.

(** An element tree whose leaves are content passed in from outside (the
    [children] of a component). *)
Unset Elimination Schemes.
Inductive element (A : Type) : Type :=
| Element (tag : string) (props : list (string * string))
    (children : list (element A))
| Content (node : A).
Set Elimination Schemes.
Arguments Element {A} tag props children.
Arguments Content {A} node.

Section layout.
(** [siteConfig] comes from the application's constants module and the font
    class from the font loader; both are outside this file. *)
Variable siteConfig : SiteConfig.t.
Variable inter_className : string.

Definition metadata : Metadata.t :=
  {| Metadata.title :=
       {| Metadata.default := SiteConfig.name siteConfig;
          Metadata.template := "%s | " ++ SiteConfig.name siteConfig |};
     Metadata.description := SiteConfig.description siteConfig;
     Metadata.icons := {| Metadata.icon := "/favicon.ico" |} |}.

Definition RootLayout {A : Type} (children : A) : element A :=
  Element "html" [("lang", "en")]
    [ Element "body" [("className", inter_className)]
        [ Element "ConvexClientProvider" []
            [ Element "ToastProvider" [] [];
              Content children ] ] ].
End layout.

(** The content leaves of a tree, each with the tags of the elements that
    enclose it, outermost first. *)
Fixpoint mounts {A : Type} (e : element A) : list (A * list string) :=
  match e with
  | Content node => [(node, [])]
  | Element tag _ children =>
      map (fun m => (fst m, tag :: snd m)) (flat_map mounts children)
  end.

Definition inStrings (s : string) (l : list string) : bool :=
  existsb (String.eqb s) l.

(** [wraps tag e]: the content that [e] mounts inside an element tagged
    [tag]. *)
Definition wraps {A : Type} (tag : string) (e : element A) : list A :=
  map fst (filter (fun m => inStrings tag (snd m)) (mounts e)).

(** Modelled from the spec: how a page title is put into the title template,
    the page title taking the place of each [%s]. *)
Fixpoint applyTemplate (page : string) (template : string) : string :=
  match template with
  | EmptyString => EmptyString
  | String c rest =>
      match rest with
      | String c' rest' =>
          if Ascii.eqb c "%" && Ascii.eqb c' "s"
          then page ++ applyTemplate page rest'
          else String c (applyTemplate page rest)
      | EmptyString => String c EmptyString
      end
  end.

Fixpoint hasPlaceholder (s : string) : bool :=
  match s with
  | EmptyString => false
  | String c rest =>
      match rest with
      | String c' _ =>
          (Ascii.eqb c "%" && Ascii.eqb c' "s") || hasPlaceholder rest
      | EmptyString => false
      end
  end.

(** The child lists of the elements of a tree that carry a given tag, in
    document order. *)
Fixpoint childrenOf {A : Type} (tag : string) (e : element A)
    : list (list (element A)) :=
  match e with
  | Content _ => []
  | Element tag' _ children =>
      (if String.eqb tag tag' then [children] else [])
      ++ flat_map (childrenOf tag) children
  end.

(** The string literals of an enumeration (a union of literals). *)
Definition literalsOf (t : validator) : list string :=
  match t with
  | v.union members =>
      flat_map (fun m => match m with v.literal s => [s] | _ => [] end) members
  | _ => []
  end.

Definition isEnumeration (t : validator) : bool :=
  match t with
  | v.union members =>
      forallb (fun m => match m with v.literal _ => true | _ => false end) members
  | _ => false
  end.

Fixpoint uniqueKeys {A : Type} (o : list (string * A)) : bool :=
  match o with
  | [] => true
  | (k, _) :: rest => negb (hasKey k rest) && uniqueKeys rest
  end.

Definition isSystemField (k : string) : bool :=
  String.eqb k "_id" || String.eqb k "_creationTime".

(** ** Sample records and the vocabulary of the statements *)

Definition sampleUser (code : string) (displayName : string) : document :=
  [ ("name", VString displayName);
    ("role", VString "RegularUser");
    ("lastLogin", VNumber 0);
    ("isActive", VBoolean true);
    ("onboardingCompleted", VBoolean false);
    ("telegramNotificationsEnabled", VBoolean false);
    ("inAppNotificationsEnabled", VBoolean true);
    ("referralCode", VString code) ].

Definition sampleCampaign (code : string) (title : string) : document :=
  [ ("tenantId", VId "tenants" 7);
    ("name", VString title);
    ("code", VString code);
    ("status", VString "Active");
    ("rewardType", VString "FlatAmount");
    ("rewardValue", VNumber 500);
    ("startDate", VNumber 0) ].

Definition sampleGame (tenant : value) (status : string) : document :=
  [ ("tenantId", tenant);
    ("name", VString "Friday pool");
    ("entryFee", VNumber 1000);
    ("maxPlayers", VNumber 10);
    ("status", VString status);
    ("currentPlayers", VNumber 0);
    ("participants", VArray []) ].

Definition sampleEmployee (role : string) : document :=
  [ ("userId", VId "users" 1);
    ("tenantId", VId "tenants" 7);
    ("role", VString role);
    ("isActive", VBoolean true) ].

Definition sampleWallet (kind : string) : document :=
  [ ("ownerId", VId "users" 1);
    ("balance", VNumber 0);
    ("type", VString kind) ].

Definition sampleTransaction : document :=
  [ ("type", VString "Deposit");
    ("amount", VNumber (-250));
    ("description", VString "adjustment");
    ("status", VString "Pending") ].

Definition sampleNotification (related : list (string * value)) : document :=
  [ ("userId", VId "users" 1);
    ("type", VString "GameUpdate");
    ("title", VString "Game full");
    ("message", VString "The game is about to start");
    ("isRead", VBoolean false);
    ("channel", VString "InApp") ] ++ related.

(** The value a field holds is one of the strings of a list. *)
Definition fieldAmong (d : document) (k : string) (allowed : list string) : Prop :=
  exists s, getField k d = Some (VString s) /\ In s allowed.

(** The field is absent or it is an id of the given table. *)
Definition optionalRef (d : document) (k : string) (tbl : string) : Prop :=
  getField k d = None \/ exists key, getField k d = Some (VId tbl key).

(** Closed lists of pairwise different strings. *)
Ltac distinct_strings :=
  repeat (constructor; [simpl; intuition discriminate |]); constructor.

Definition roleNames : list string :=
  [ "PlatformAdmin"; "TenantAdmin_Manager"; "TenantAdmin_HR";
    "TenantAdmin_Sales"; "TenantAdmin_Marketing"; "TenantAdmin_Support";
    "TenantAdmin_Finance"; "RegularUser" ].

Definition gameStatusNames : list string :=
  [ "Pending"; "Open"; "Filling"; "Full"; "Active"; "Completed"; "Cancelled" ].

(** A tenant-admin variant is a role named [TenantAdmin_...]. *)
Definition isTenantAdminRole (role : string) : bool :=
  String.prefix "TenantAdmin_" role.

Definition tenantAdminRoleNames : list string :=
  filter isTenantAdminRole roleNames.

Definition transactionTypeNames : list string :=
  [ "Deposit"; "Withdrawal"; "GameEntry"; "GamePayout"; "CommissionEarned";
    "ReferralBonus" ].

Definition transactionStatusNames : list string :=
  [ "Pending"; "Completed"; "Failed"; "Reversed" ].

(** The record references a document of the table through the field. *)
Definition references (d : document) (k : string) (tbl : string) : Prop :=
  exists key, getField k d = Some (VId tbl key).

Definition walletTypeNames : list string := [ "User"; "Tenant"; "Platform" ].

(** The ownership rule in the specification's words: a wallet of type User
    is keyed by an individual user owner; a wallet of type Tenant or Platform
    is a scoped pool that is not keyed by an individual user owner. *)
Definition ownershipPartition (w : document) : Prop :=
  (getField "type" w = Some (VString "User") -> references w "ownerId" "users") /\
  (getField "type" w = Some (VString "Tenant")
   \/ getField "type" w = Some (VString "Platform") ->
   getField "ownerId" w = None).

(** The declarations of the schema that the store relies on: table names and
    the index names of a table are unique, and no table declares a field
    under a name the store gives to the identity or the creation time. *)
Definition declaresNoSystemField (t : table) : bool :=
  forallb (fun kf => negb (isSystemField (fst kf))) (fields t).

Definition sampleSite : SiteConfig.t :=
  {| SiteConfig.name := "Money Pool";
     SiteConfig.description := "Pooled-entry games" |}.

(** ** Vocabulary for the schema as a whole *)

(** Induction over validators that reaches inside unions and objects. *)
Section validator_induction.
Variable P : validator -> Prop.
Hypothesis Hstring : P v.string.
Hypothesis Hnumber : P v.number.
Hypothesis Hboolean : P v.boolean.
Hypothesis Hany : P v.any.
Hypothesis Hid : forall tbl, P (v.id tbl).
Hypothesis Hliteral : forall s, P (v.literal s).
Hypothesis Hunion : forall members, Forall P members -> P (v.union members).
Hypothesis Hobject :
  forall fs, Forall (fun kf => P (snd kf)) fs -> P (v.object fs).
Hypothesis Harray : forall element, P element -> P (v.array element).
Hypothesis Hoptional : forall inner, P inner -> P (v.optional inner).

Fixpoint validator_ind (t : validator) : P t :=
  match t with
  | v.string => Hstring
  | v.number => Hnumber
  | v.boolean => Hboolean
  | v.any => Hany
  | v.id tbl => Hid tbl
  | v.literal s => Hliteral s
  | v.union members =>
      Hunion members
        ((fix all (l : list validator) : Forall P l :=
            match l with
            | [] => Forall_nil P
            | m :: ms => Forall_cons m (validator_ind m) (all ms)
            end) members)
  | v.object fs =>
      Hobject fs
        ((fix all (l : list (string * validator))
            : Forall (fun kf => P (snd kf)) l :=
            match l with
            | [] => Forall_nil _
            | kf :: ms => Forall_cons kf (validator_ind (snd kf)) (all ms)
            end) fs)
  | v.array element => Harray element (validator_ind element)
  | v.optional inner => Hoptional inner (validator_ind inner)
  end.
End validator_induction.

(** The tables a validator refers to through [v.id], at any depth. *)
Fixpoint idTargets (t : validator) : list string :=
  match t with
  | v.id tbl => [tbl]
  | v.union members => flat_map idTargets members
  | v.object fs => flat_map (fun kf => idTargets (snd kf)) fs
  | v.array element => idTargets element
  | v.optional inner => idTargets inner
  | _ => []
  end.

Definition tableIdTargets (t : table) : list string :=
  flat_map (fun kf => idTargets (snd kf)) (fields t).

(** The enumerated fields of a schema: table, field and admitted literals. *)
Definition enumeratedFields (s : schema) : list (string * string * list string) :=
  flat_map
    (fun nt =>
       flat_map
         (fun kf =>
            if isEnumeration (snd kf)
            then [(fst nt, fst kf, literalsOf (snd kf))]
            else [])
         (fields (snd nt)))
    s.

Fixpoint names_eqb (a b : list string) : bool :=
  match a, b with
  | [], [] => true
  | x :: a', y :: b' => String.eqb x y && names_eqb a' b'
  | _, _ => false
  end.

(** Some index of the table is keyed on the single field [f]. *)
Definition hasSingleIndex (t : table) (f : string) : bool :=
  existsb (fun ik => names_eqb (snd ik) [f]) (indexes t).

(** An index field is either declared by the table or the creation time the
    store adds, which only the audit log's time index uses. *)
Definition indexFieldDeclared (tn : string) (t : table) (iname f : string) : bool :=
  hasKey f (fields t)
  || (String.eqb f "_creationTime" && String.eqb tn "auditLogs"
      && String.eqb iname "by_creationTime").

(** The same value with every number replaced through [f]. *)
Fixpoint renumber (f : Z -> Z) (x : value) : value :=
  match x with
  | VNumber n => VNumber (f n)
  | VArray items => VArray (map (renumber f) items)
  | VObject fs => VObject (map (fun kv => (fst kv, renumber f (snd kv))) fs)
  | other => other
  end.

Definition renumberDocument (f : Z -> Z) (d : document) : document :=
  map (fun kv => (fst kv, renumber f (snd kv))) d.

(** The field is absent or holds a value the validator admits. *)
Definition optionalField (d : document) (k : string) (t : validator) : Prop :=
  getField k d = None \/ exists y, getField k d = Some y /\ validate t y = true.

Definition numberField (d : document) (k : string) : Prop :=
  exists n : Z, getField k d = Some (VNumber n).

Definition sampleAuditLog (resource : list (string * value)) : document :=
  [ ("actorId", VId "users" 1);
    ("actorRole", VString "PlatformAdmin");
    ("actionType", VString "GAME_UPDATED");
    ("resourceType", VString "Game");
    ("details", VObject []) ] ++ resource.

Definition sampleParticipant (user : N) (number : Z) : value :=
  VObject
    [ ("userId", VId "users" user);
      ("selectedNumber", VNumber number);
      ("joinedAt", VNumber 1700000000) ].

Definition sampleTenant (config : list (string * value)) : document :=
  [ ("name", VString "Acme");
    ("status", VString "Pending");
    ("managerEmail", VString "manager@acme.example");
    ("settings", VObject (("commissionRate", VNumber 5) :: config)) ].

Definition samplePayment (status : string) : document :=
  [ ("userId", VId "users" 1);
    ("tenantId", VId "tenants" 7);
    ("amount", VNumber 5000);
    ("screenshotId", VId "_storage" 12);
    ("status", VString status);
    ("paymentMethod", VString "Bank Transfer");
    ("referenceCode", VString "TX-1") ].

Definition sampleTicket (replies : list value) : document :=
  [ ("userId", VId "users" 1);
    ("subject", VString "Payout");
    ("message", VString "Where is my payout?");
    ("status", VString "Open");
    ("priority", VString "High");
    ("replies", VArray replies) ].

(** The validator is an id of the table, required or optional. *)
Definition refersTo (tbl : string) (ft : validator) : bool :=
  match ft with
  | v.id t => String.eqb t tbl
  | v.optional (v.id t) => String.eqb t tbl
  | _ => false
  end.

(** The table keeps an index of the given name on the given fields. *)
Definition hasIndex (t : table) (iname : string) (keys : list string) : bool :=
  match getField iname (indexes t) with
  | Some ks => names_eqb ks keys
  | None => false
  end.

Definition sampleRound (count : Z) (participants : list value) : document :=
  [ ("tenantId", VId "tenants" 7);
    ("name", VString "Friday pool");
    ("entryFee", VNumber 1000);
    ("maxPlayers", VNumber 10);
    ("status", VString "Filling");
    ("currentPlayers", VNumber count);
    ("participants", VArray participants);
    ("winnerId", VId "users" 4) ].

(** * Properties *)

(** ** Values and field access *)

Lemma value_eqb_refl (a : value) : value_eqb a a = true.
Proof.
  induction a as [| b | n | s | t k | items IH | fs IH] using value_ind; simpl.
  - reflexivity.
  - apply Bool.eqb_reflx.
  - apply Z.eqb_refl.
  - apply String.eqb_refl.
  - now rewrite String.eqb_refl, N.eqb_refl.
  - induction IH as [| x l Hx _ IHl]; [reflexivity |].
    now rewrite Hx, IHl.
  - induction IH as [| [k x] l Hx _ IHl]; [reflexivity |].
    simpl in Hx. now rewrite String.eqb_refl, Hx, IHl.
Qed.

Lemma value_eqb_true (a b : value) : value_eqb a b = true -> a = b.
Proof.
  revert b.
  induction a as [| x | n | s | t k | items IH | fs IH] using value_ind;
    intros [| y | m | s' | u k' | items' | fs']; simpl; try discriminate.
  - reflexivity.
  - intros H. apply Bool.eqb_prop in H. now subst.
  - intros H. apply Z.eqb_eq in H. now subst.
  - intros H. apply String.eqb_eq in H. now subst.
  - intros H. apply andb_prop in H as [H1 H2].
    apply String.eqb_eq in H1. apply N.eqb_eq in H2. now subst.
  - intros H. f_equal. revert items' H.
    induction IH as [| x l Hx _ IHl]; intros [| y m]; try discriminate.
    + reflexivity.
    + intros H. apply andb_prop in H as [H1 H2].
      f_equal; [now apply Hx | now apply IHl].
  - intros H. f_equal. revert fs' H.
    induction IH as [| [k x] l Hx _ IHl]; intros [| [k' y] m]; try discriminate.
    + reflexivity.
    + intros H. apply andb_prop in H as [H12 H3].
      apply andb_prop in H12 as [H1 H2].
      apply String.eqb_eq in H1. simpl in Hx. apply Hx in H2.
      subst. f_equal. now apply IHl.
Qed.

Lemma value_eqb_eq (a b : value) : value_eqb a b = true <-> a = b.
Proof.
  split; [apply value_eqb_true | intros ->; apply value_eqb_refl].
Qed.

Lemma field_eqb_eq (a b : option value) : field_eqb a b = true <-> a = b.
Proof.
  destruct a as [x |], b as [y |]; simpl; try (split; congruence).
  rewrite value_eqb_eq. split; congruence.
Qed.

Lemma key_eqb_eq (a b : list (option value)) : key_eqb a b = true <-> a = b.
Proof.
  revert b. induction a as [| x a IH]; intros [| y b]; simpl;
    try (split; congruence).
  rewrite andb_true_iff, field_eqb_eq, IH. split.
  - intros [-> ->]. reflexivity.
  - intros H. injection H as -> ->. now split.
Qed.

Lemma getField_In {A : Type} (k : string) (o : list (string * A)) (x : A) :
  getField k o = Some x -> In (k, x) o.
Proof.
  induction o as [| [k' y] o IH]; simpl; [discriminate |].
  destruct (String.eqb k k') eqn:E.
  - apply String.eqb_eq in E. intros H. injection H as ->. subst. now left.
  - intros H. right. now apply IH.
Qed.

Lemma In_hasKey {A : Type} (k : string) (x : A) (o : list (string * A)) :
  In (k, x) o -> hasKey k o = true.
Proof.
  unfold hasKey. induction o as [| [k' y] o IH]; simpl; [contradiction |].
  intros [H | H].
  - injection H as -> ->. now rewrite String.eqb_refl.
  - destruct (String.eqb k k'); [reflexivity | now apply IH].
Qed.

Lemma uniqueKeys_getField {A : Type} (k : string) (x : A) (o : list (string * A)) :
  uniqueKeys o = true -> In (k, x) o -> getField k o = Some x.
Proof.
  induction o as [| [k' y] o IH]; simpl; [contradiction |].
  intros U [H | H]; apply andb_prop in U as [U1 U2].
  - injection H as -> ->. now rewrite String.eqb_refl.
  - destruct (String.eqb k k') eqn:E.
    + apply String.eqb_eq in E. subst k'.
      apply In_hasKey in H. rewrite H in U1. discriminate.
    + now apply IH.
Qed.

Lemma getField_app_l {A : Type} (k : string) (o o' : list (string * A)) (x : A) :
  getField k o = Some x -> getField k (o ++ o') = Some x.
Proof.
  induction o as [| [k' y] o IH]; simpl; [discriminate |].
  destruct (String.eqb k k'); auto.
Qed.

Lemma getField_app_r {A : Type} (k : string) (o o' : list (string * A)) :
  getField k o = None -> getField k (o ++ o') = getField k o'.
Proof.
  induction o as [| [k' y] o IH]; simpl; [reflexivity |].
  destruct (String.eqb k k'); [discriminate | auto].
Qed.

(** ** Validation of documents *)

(** A document that passes a table's validation gives every declared field a
    value of the declared type, or omits it when the field is optional. *)
Lemma validateDocument_field (t : table) (d : document) (k : string)
    (ft : validator) :
  validateDocument t d = true -> In (k, ft) (fields t) ->
  match getField k d with
  | Some y => validate ft y = true
  | None => isOptional ft = true
  end.
Proof.
  unfold validateDocument. simpl. intros H Hin.
  apply andb_prop in H as [H _].
  rewrite forallb_forall in H. specialize (H (k, ft) Hin). simpl in H.
  destruct (getField k d); exact H.
Qed.

(** It holds no field that the table does not declare. *)
Lemma validateDocument_declared (t : table) (d : document) (k : string)
    (x : value) :
  validateDocument t d = true -> getField k d = Some x ->
  hasKey k (fields t) = true.
Proof.
  unfold validateDocument. simpl. intros H Hk.
  apply andb_prop in H as [_ H].
  rewrite forallb_forall in H. exact (H (k, x) (getField_In _ _ _ Hk)).
Qed.

(** A required field of a valid document is present and well typed. *)
Lemma validateDocument_required (t : table) (d : document) (k : string)
    (ft : validator) :
  validateDocument t d = true -> In (k, ft) (fields t) ->
  isOptional ft = false ->
  exists y, getField k d = Some y /\ validate ft y = true.
Proof.
  intros H Hin Hreq. pose proof (validateDocument_field t d k ft H Hin) as F.
  destruct (getField k d) as [y |]; [eauto | congruence].
Qed.

(** An enumeration admits exactly the strings it lists. *)
Lemma validate_enumeration (t : validator) (x : value) :
  isEnumeration t = true ->
  (validate t x = true <-> exists s, x = VString s /\ In s (literalsOf t)).
Proof.
  destruct t as [| | | | | | members | | |]; simpl; try discriminate.
  induction members as [| m ms IH]; simpl.
  - intros _. split; [discriminate | intros (s & _ & [])].
  - destruct m as [| | | | | l | | | |]; try discriminate.
    intros E. specialize (IH E). simpl. rewrite orb_true_iff, IH. split.
    + intros [H | (s & -> & H)].
      * destruct x; try discriminate. apply String.eqb_eq in H. subst.
        eexists; split; [reflexivity | now left].
      * eexists; split; [reflexivity | now right].
    + intros (s & -> & [-> | H]).
      * left. apply String.eqb_refl.
      * right. eauto.
Qed.

Lemma validate_id (tbl : string) (x : value) :
  validate (v.id tbl) x = true <-> exists key, x = VId tbl key.
Proof.
  simpl. split.
  - destruct x; try discriminate. intros H. apply String.eqb_eq in H.
    subst. eauto.
  - intros [key ->]. apply String.eqb_refl.
Qed.

(** ** Roles and game statuses *)

Lemma validateDocument_enumerated (t : table) (d : document) (k : string)
    (ft : validator) :
  validateDocument t d = true -> In (k, ft) (fields t) ->
  isEnumeration ft = true -> fieldAmong d k (literalsOf ft).
Proof.
  intros H Hin E.
  destruct (validateDocument_required t d k ft H Hin) as (y & Hy & Hv).
  - destruct ft; simpl in E; try discriminate; reflexivity.
  - apply (validate_enumeration ft y E) in Hv as (s & -> & Hs).
    exists s. now split.
Qed.

Lemma validateDocument_optionalRef (t : table) (d : document) (k tbl : string) :
  validateDocument t d = true -> In (k, v.optional (v.id tbl)) (fields t) ->
  optionalRef d k tbl.
Proof.
  intros H Hin. pose proof (validateDocument_field t d k _ H Hin) as F.
  unfold optionalRef. destruct (getField k d) as [y |]; [right | now left].
  change (validate (v.id tbl) y = true) in F.
  apply validate_id in F as [key ->]. eauto.
Qed.

Lemma insert_invalid (s : schema) (db : database) (tn : string) (t : table)
    (d : document) :
  getField tn s = Some t -> validateDocument t d = false ->
  insert s db tn d = None.
Proof.
  intros Ht Hv. unfold insert. now rewrite Ht, Hv.
Qed.

(** C2: a users record carries a role among exactly eight literals (platform
    admin, six tenant-admin variants, regular user) and a games record a
    status among exactly seven; a value inside the set passes the field's
    validator, a value outside it does not, and a write whose role or status
    is outside the set (or missing) is rejected. *)
Theorem role_and_status_are_enumerated :
  (literalsOf userRoles = roleNames /\ List.length roleNames = 8 /\ NoDup roleNames) /\
  (literalsOf gameStatus = gameStatusNames /\ List.length gameStatusNames = 7
    /\ NoDup gameStatusNames) /\
  (getField "role" (fields users) = Some userRoles /\
   getField "status" (fields games) = Some gameStatus) /\
  (forall x, validate userRoles x = true <->
     exists s, x = VString s /\ In s roleNames) /\
  (forall x, validate gameStatus x = true <->
     exists s, x = VString s /\ In s gameStatusNames) /\
  (forall d, validateDocument users d = true -> fieldAmong d "role" roleNames) /\
  (forall d, validateDocument games d = true ->
     fieldAmong d "status" gameStatusNames) /\
  (forall db d, ~ fieldAmong d "role" roleNames ->
     insert appSchema db "users" d = None) /\
  (forall db d, ~ fieldAmong d "status" gameStatusNames ->
     insert appSchema db "games" d = None).
Proof.
  assert (U : forall d, validateDocument users d = true ->
                        fieldAmong d "role" roleNames).
  { intros d H.
    apply (validateDocument_enumerated users d "role" userRoles H);
      [simpl; tauto | reflexivity]. }
  assert (G : forall d, validateDocument games d = true ->
                        fieldAmong d "status" gameStatusNames).
  { intros d H.
    apply (validateDocument_enumerated games d "status" gameStatus H);
      [simpl; tauto | reflexivity]. }
  repeat split.
  - distinct_strings.
  - distinct_strings.
  - apply (validate_enumeration userRoles x). reflexivity.
  - apply (validate_enumeration userRoles x). reflexivity.
  - apply (validate_enumeration gameStatus x). reflexivity.
  - apply (validate_enumeration gameStatus x). reflexivity.
  - exact U.
  - exact G.
  - intros db d Hout. apply (insert_invalid appSchema db "users" users d).
    + reflexivity.
    + destruct (validateDocument users d) eqn:E; [| reflexivity].
      destruct (Hout (U d E)).
  - intros db d Hout. apply (insert_invalid appSchema db "games" games d).
    + reflexivity.
    + destruct (validateDocument games d) eqn:E; [| reflexivity].
      destruct (Hout (G d E)).
Qed.

Lemma role_and_status_are_enumerated_witness :
  validateDocument users (sampleUser "REF-1" "Abebe") = true /\
  fieldAmong (sampleUser "REF-1" "Abebe") "role" roleNames /\
  validateDocument games (sampleGame (VId "tenants" 7) "Open") = true /\
  fieldAmong (sampleGame (VId "tenants" 7) "Open") "status" gameStatusNames.
Proof.
  destruct role_and_status_are_enumerated
    as (_ & _ & _ & _ & _ & U & G & _).
  split; [reflexivity | split; [apply U; reflexivity |]].
  split; [reflexivity | apply G; reflexivity].
Defined.

(** ** Employees *)

(** C5: the employees table declares its role with the full role enumeration,
    so an employee record whose role is RegularUser (or PlatformAdmin) passes
    validation and is written, although neither is a tenant-admin variant.
    Six of the eight roles are tenant-admin variants. *)
Theorem employees_admit_any_role :
  getField "role" (fields employees) = Some userRoles /\
  List.length tenantAdminRoleNames = 6 /\
  isTenantAdminRole "RegularUser" = false /\
  isTenantAdminRole "PlatformAdmin" = false /\
  validateDocument employees (sampleEmployee "RegularUser") = true /\
  validateDocument employees (sampleEmployee "PlatformAdmin") = true /\
  (exists id db,
      insert appSchema emptyDatabase "employees" (sampleEmployee "RegularUser")
      = Some (id, db)) /\
  (forall d, validateDocument employees d = true -> fieldAmong d "role" roleNames).
Proof.
  repeat split; try reflexivity.
  - eexists. eexists. reflexivity.
  - intros d H.
    apply (validateDocument_enumerated employees d "role" userRoles H);
      [simpl; tauto | reflexivity].
Qed.

Lemma employees_admit_any_role_witness :
  validateDocument employees (sampleEmployee "TenantAdmin_HR") = true /\
  fieldAmong (sampleEmployee "TenantAdmin_HR") "role" roleNames.
Proof.
  split; [reflexivity |].
  apply (proj2 (proj2 (proj2 (proj2 (proj2 (proj2 (proj2
           employees_admit_any_role))))))).
  reflexivity.
Defined.

(** ** Notifications *)

(** C10: the related-entity link of a notification, when present, is an id
    of the games table; a notification whose link is an id of another table
    (a transaction, say) or is not an id at all fails validation. *)
Theorem notification_link_is_a_game :
  getField "relatedEntityId" (fields notifications)
    = Some (v.optional (v.id "games")) /\
  (forall d, validateDocument notifications d = true ->
     optionalRef d "relatedEntityId" "games") /\
  (forall d x, getField "relatedEntityId" d = Some x ->
     (forall key, x <> VId "games" key) ->
     validateDocument notifications d = false) /\
  (forall key,
     validateDocument notifications
       (sampleNotification [("relatedEntityId", VId "games" key)]) = true) /\
  (forall key,
     validateDocument notifications
       (sampleNotification [("relatedEntityId", VId "transactions" key)]) = false) /\
  validateDocument notifications (sampleNotification []) = true.
Proof.
  assert (L : forall d, validateDocument notifications d = true ->
                        optionalRef d "relatedEntityId" "games").
  { intros d H.
    apply (validateDocument_optionalRef notifications d _ _ H). simpl. tauto. }
  repeat split; try reflexivity.
  - exact L.
  - intros d x Hx Hne.
    destruct (validateDocument notifications d) eqn:E; [| reflexivity].
    destruct (L d E) as [H | [key H]]; rewrite Hx in H; [discriminate |].
    injection H as ->. destruct (Hne key eq_refl).
Qed.

Lemma notification_link_is_a_game_witness :
  validateDocument notifications
    (sampleNotification [("relatedEntityId", VId "games" 3)]) = true /\
  optionalRef (sampleNotification [("relatedEntityId", VId "games" 3)])
    "relatedEntityId" "games" /\
  validateDocument notifications
    (sampleNotification [("relatedEntityId", VId "transactions" 3)]) = false.
Proof.
  destruct notification_link_is_a_game as (_ & L & R & _).
  split; [reflexivity | split].
  - apply L. reflexivity.
  - apply (R _ (VId "transactions" 3)); [reflexivity | discriminate].
Defined.

(** ** No uniqueness and no referential integrity *)

(** C8: two different user records with the same referral code both pass
    validation, and so do two different referral campaigns with the same
    code; written one after the other into an empty store, all the writes
    succeed, although no tenant exists for the campaigns to refer to. *)
Theorem duplicates_pass_validation :
  (exists u1 u2 : document,
      u1 <> u2 /\
      getField "referralCode" u1 = getField "referralCode" u2 /\
      getField "referralCode" u1 <> None /\
      validateDocument users u1 = true /\
      validateDocument users u2 = true /\
      exists id1 db1 id2 db2,
        insert appSchema emptyDatabase "users" u1 = Some (id1, db1) /\
        insert appSchema db1 "users" u2 = Some (id2, db2) /\
        id1 <> id2) /\
  (exists c1 c2 : document,
      c1 <> c2 /\
      getField "code" c1 = getField "code" c2 /\
      getField "code" c1 <> None /\
      validateDocument referralCampaigns c1 = true /\
      validateDocument referralCampaigns c2 = true /\
      exists id1 db1 id2 db2,
        insert appSchema emptyDatabase "referralCampaigns" c1 = Some (id1, db1) /\
        insert appSchema db1 "referralCampaigns" c2 = Some (id2, db2) /\
        id1 <> id2 /\
        tableDocuments db2 "tenants" = []).
Proof.
  split.
  - exists (sampleUser "REF-1" "Abebe"), (sampleUser "REF-1" "Sara").
    repeat split; try reflexivity; try discriminate.
    do 4 eexists. repeat split; try reflexivity. discriminate.
  - exists (sampleCampaign "SPRING" "Spring"), (sampleCampaign "SPRING" "Autumn").
    repeat split; try reflexivity; try discriminate.
    do 4 eexists. repeat split; try reflexivity. discriminate.
Qed.

(** ** Transactions *)

(** C6, as stated: every transaction record references a user and a tenant.
    The schema declares both links optional: a transaction with neither
    passes validation. *)
Lemma transaction_without_user_or_tenant :
  validateDocument transactions sampleTransaction = true /\
  ~ references sampleTransaction "userId" "users" /\
  ~ references sampleTransaction "tenantId" "tenants" /\
  ~ (forall d, validateDocument transactions d = true ->
       references d "userId" "users" /\ references d "tenantId" "tenants").
Proof.
  assert (U : ~ references sampleTransaction "userId" "users")
    by (intros [key Hu]; discriminate Hu).
  split; [reflexivity | split; [exact U | split]].
  - intros [key Ht]. discriminate Ht.
  - intros H. apply U. exact (proj1 (H sampleTransaction eq_refl)).
Qed.

(** C6, amended: a transaction record has a type among six variants, a
    status among four, a signed numeric amount, and five links that are each
    optional, to a user, a tenant, a game, a payment and another
    transaction. *)
Theorem transaction_shape (d : document) :
  validateDocument transactions d = true ->
  fieldAmong d "type" transactionTypeNames /\
  fieldAmong d "status" transactionStatusNames /\
  List.length transactionTypeNames = 6 /\
  List.length transactionStatusNames = 4 /\
  (exists n : Z, getField "amount" d = Some (VNumber n)) /\
  optionalRef d "userId" "users" /\
  optionalRef d "tenantId" "tenants" /\
  optionalRef d "relatedGameId" "games" /\
  optionalRef d "relatedPaymentId" "payments" /\
  optionalRef d "relatedTransactionId" "transactions".
Proof.
  intros H.
  split; [| split].
  - apply (validateDocument_enumerated transactions d "type" transactionTypes H);
      [simpl; tauto | reflexivity].
  - apply (validateDocument_enumerated transactions d "status"
             (v.union [ v.literal "Pending"; v.literal "Completed";
                        v.literal "Failed"; v.literal "Reversed" ]) H);
      [simpl; tauto | reflexivity].
  - split; [reflexivity | split; [reflexivity | split]].
    + destruct (validateDocument_required transactions d "amount" v.number H)
        as (y & Hy & Hv); [simpl; tauto | reflexivity |].
      destruct y; try discriminate. eauto.
    + repeat split;
        apply (validateDocument_optionalRef transactions d _ _ H); simpl; tauto.
Qed.

Lemma transaction_shape_witness :
  validateDocument transactions sampleTransaction = true /\
  getField "amount" sampleTransaction = Some (VNumber (-250)) /\
  optionalRef sampleTransaction "userId" "users".
Proof.
  split; [reflexivity | split; [reflexivity |]].
  exact (proj1 (proj2 (proj2 (proj2 (proj2 (proj2
           (transaction_shape sampleTransaction eq_refl))))))).
Defined.

(** ** Wallets *)

(** C4, as stated: the wallet type partitions ownership.  A wallet of type
    Tenant that is keyed by a user owner and carries no tenant passes
    validation. *)
Lemma tenant_wallet_keyed_by_user :
  validateDocument wallets (sampleWallet "Tenant") = true /\
  getField "ownerId" (sampleWallet "Tenant") = Some (VId "users" 1) /\
  getField "tenantId" (sampleWallet "Tenant") = None /\
  ~ ownershipPartition (sampleWallet "Tenant") /\
  ~ (forall w, validateDocument wallets w = true -> ownershipPartition w).
Proof.
  assert (Hn : ~ ownershipPartition (sampleWallet "Tenant")).
  { intros [_ P]. discriminate (P (or_introl eq_refl)). }
  repeat split; try reflexivity; [exact Hn |].
  intros H. exact (Hn (H (sampleWallet "Tenant") eq_refl)).
Qed.

(** C4, amended: every wallet record is keyed by a user owner whatever its
    type (the owner is a required user id), its type is one of User, Tenant
    and Platform, and its tenant link is optional; in particular a wallet of
    type Tenant or Platform is never without a user owner, and for each of
    the three types a wallet without a tenant passes validation. *)
Theorem wallet_shape (w : document) :
  validateDocument wallets w = true ->
  references w "ownerId" "users" /\
  fieldAmong w "type" walletTypeNames /\
  optionalRef w "tenantId" "tenants" /\
  (exists n : Z, getField "balance" w = Some (VNumber n)) /\
  getField "ownerId" w <> None /\
  (forall kind, In kind walletTypeNames ->
     validateDocument wallets (sampleWallet kind) = true /\
     getField "tenantId" (sampleWallet kind) = None).
Proof.
  intros H.
  assert (O : references w "ownerId" "users").
  { destruct (validateDocument_required wallets w "ownerId" (v.id "users") H)
      as (y & Hy & Hv); [simpl; tauto | reflexivity |].
    apply validate_id in Hv as [key ->]. now exists key. }
  split; [exact O | split; [| split; [| split; [| split]]]].
  - apply (validateDocument_enumerated wallets w "type"
             (v.union [ v.literal "User"; v.literal "Tenant";
                        v.literal "Platform" ]) H);
      [simpl; tauto | reflexivity].
  - apply (validateDocument_optionalRef wallets w _ _ H). simpl. tauto.
  - destruct (validateDocument_required wallets w "balance" v.number H)
      as (y & Hy & Hv); [simpl; tauto | reflexivity |].
    destruct y; try discriminate. eauto.
  - destruct O as [key ->]. discriminate.
  - intros kind [<- | [<- | [<- | []]]]; split; reflexivity.
Qed.

Lemma wallet_shape_witness :
  validateDocument wallets (sampleWallet "Platform") = true /\
  references (sampleWallet "Platform") "ownerId" "users".
Proof.
  split; [reflexivity |].
  exact (proj1 (wallet_shape (sampleWallet "Platform") eq_refl)).
Defined.

(** ** Writes and reads *)

Lemma appSchema_tables_unique : uniqueKeys appSchema = true.
Proof. reflexivity. Qed.

Lemma appSchema_indexes_unique (tn : string) (t : table) :
  In (tn, t) appSchema -> uniqueKeys (indexes t) = true.
Proof.
  assert (H : forallb (fun nt => uniqueKeys (indexes (snd nt))) appSchema = true)
    by reflexivity.
  rewrite forallb_forall in H. intros Hin. exact (H _ Hin).
Qed.

Lemma appSchema_no_system_field (tn : string) (t : table) (k : string)
    (ft : validator) :
  In (tn, t) appSchema -> In (k, ft) (fields t) -> isSystemField k = false.
Proof.
  assert (H : forallb (fun nt => declaresNoSystemField (snd nt)) appSchema = true)
    by reflexivity.
  rewrite forallb_forall in H. intros Hin Hk. specialize (H _ Hin).
  unfold declaresNoSystemField in H. rewrite forallb_forall in H.
  specialize (H _ Hk). simpl in H. now apply negb_true_iff in H.
Qed.

Lemma appSchema_table (tn : string) (t : table) :
  In (tn, t) appSchema -> getField tn appSchema = Some t.
Proof. apply uniqueKeys_getField, appSchema_tables_unique. Qed.

Lemma find_app_fresh {A : Type} (f : A -> bool) (l : list A) (x : A) :
  forallb (fun y => negb (f y)) l = true -> f x = true ->
  find f (l ++ [x]) = Some x.
Proof.
  induction l as [| y l IH]; simpl; intros H Hx.
  - now rewrite Hx.
  - apply andb_prop in H as [Hy H]. apply negb_true_iff in Hy.
    rewrite Hy. now apply IH.
Qed.

Lemma wellFormed_fresh (db : database) (tn : string) :
  wellFormed db = true ->
  forallb (fun r => negb (isRow tn (nextKey db) r)) (rows db) = true.
Proof.
  unfold wellFormed. rewrite !forallb_forall. intros H r Hr.
  specialize (H r Hr). apply N.ltb_lt in H. unfold isRow.
  apply negb_true_iff, andb_false_iff. right. apply N.eqb_neq. lia.
Qed.

Lemma emptyDatabase_wellFormed : wellFormed emptyDatabase = true.
Proof. reflexivity. Qed.

(** The shape of a successful write. *)
Lemma insert_inv (s : schema) (db db' : database) (tn : string) (d : document)
    (id : value) :
  insert s db tn d = Some (id, db') ->
  (forall t, getField tn s = Some t -> validateDocument t d = true) /\
  id = VId tn (nextKey db) /\
  nextKey db' = N.succ (nextKey db) /\
  rows db' = rows db ++
    [ {| rowTable := tn; rowKey := nextKey db;
         rowCreationTime := clock db; rowFields := d |} ].
Proof.
  unfold insert, store. destruct (getField tn s) as [t |].
  - destruct (validateDocument t d) eqn:E; [| discriminate].
    intros H. injection H as <- <-. repeat split.
    intros t' Ht'. injection Ht' as <-. exact E.
  - intros H. injection H as <- <-. repeat split. discriminate.
Qed.

Lemma insert_wellFormed (s : schema) (db db' : database) (tn : string)
    (d : document) (id : value) :
  wellFormed db = true -> insert s db tn d = Some (id, db') ->
  wellFormed db' = true.
Proof.
  intros W H. apply insert_inv in H as (_ & _ & Hk & Hr).
  unfold wellFormed in *. rewrite Hr, Hk, forallb_app. simpl.
  apply andb_true_intro. split.
  - rewrite forallb_forall in *. intros r Hin. specialize (W r Hin).
    apply N.ltb_lt in W. apply N.ltb_lt. lia.
  - rewrite andb_true_r. apply N.ltb_lt. lia.
Qed.

(** Reading back the record just written gives its fields followed by the
    identity and the creation time. *)
Lemma get_after_insert (s : schema) (db db' : database) (tn : string)
    (d : document) (id : value) :
  wellFormed db = true -> insert s db tn d = Some (id, db') ->
  get db' id =
    Some (d ++ [("_id", id); ("_creationTime", VNumber (clock db))]).
Proof.
  intros W H. apply insert_inv in H as (_ & -> & _ & Hr).
  unfold get. rewrite Hr.
  rewrite (find_app_fresh _ _ _ (wellFormed_fresh db tn W)).
  - reflexivity.
  - unfold isRow. simpl. now rewrite String.eqb_refl, N.eqb_refl.
Qed.

Lemma getField_system (k : string) (d : document) (id stamp : value) :
  isSystemField k = false ->
  getField k (d ++ [("_id", id); ("_creationTime", stamp)]) = getField k d.
Proof.
  unfold isSystemField. intros H. apply orb_false_iff in H as [H1 H2].
  destruct (getField k d) as [y |] eqn:E.
  - now apply getField_app_l.
  - rewrite (getField_app_r _ _ _ E). simpl. now rewrite H1, H2.
Qed.

(** C3: for every table of the schema, a record that is valid for the table
    and omits all its optional fields is written successfully, and the read
    of the new record returns every required field with the value written
    and every optional field as absent; the only fields the read adds are
    the identity and the creation time. *)
Theorem write_then_read_round_trip (tn : string) (t : table) (db : database)
    (d : document) :
  In (tn, t) appSchema ->
  wellFormed db = true ->
  validateDocument t d = true ->
  (forall k ft, In (k, ft) (fields t) -> isOptional ft = true ->
     getField k d = None) ->
  exists id db' d',
    insert appSchema db tn d = Some (id, db') /\
    wellFormed db' = true /\
    get db' id = Some d' /\
    (forall k ft, In (k, ft) (fields t) -> isOptional ft = false ->
       exists y, getField k d = Some y /\ getField k d' = Some y) /\
    (forall k ft, In (k, ft) (fields t) -> isOptional ft = true ->
       getField k d' = None) /\
    (forall k, isSystemField k = false -> getField k d' = getField k d).
Proof.
  intros Hin W V Homit.
  assert (I : insert appSchema db tn d =
              Some (VId tn (nextKey db),
                    {| nextKey := N.succ (nextKey db);
                       clock := Z.succ (clock db);
                       rows := rows db ++
                         [ {| rowTable := tn; rowKey := nextKey db;
                              rowCreationTime := clock db;
                              rowFields := d |} ] |})).
  { unfold insert. now rewrite (appSchema_table tn t Hin), V. }
  eexists. eexists. eexists.
  split; [exact I | split; [exact (insert_wellFormed _ _ _ _ _ _ W I) |]].
  split; [exact (get_after_insert _ _ _ _ _ _ W I) |].
  split; [| split].
  - intros k ft Hk Hreq.
    destruct (validateDocument_required t d k ft V Hk Hreq) as (y & Hy & _).
    exists y. split; [exact Hy | now apply getField_app_l].
  - intros k ft Hk Hopt.
    rewrite (getField_system k d _ _ (appSchema_no_system_field tn t k ft Hin Hk)).
    exact (Homit k ft Hk Hopt).
  - intros k Hk. now apply getField_system.
Qed.

Lemma write_then_read_round_trip_witness :
  exists id db' d',
    insert appSchema emptyDatabase "games" (sampleGame (VId "tenants" 7) "Open")
      = Some (id, db') /\
    get db' id = Some d' /\
    getField "status" d' = Some (VString "Open") /\
    getField "winnerId" d' = None.
Proof.
  destruct (write_then_read_round_trip "games" games emptyDatabase
              (sampleGame (VId "tenants" 7) "Open"))
    as (id & db' & d' & I & _ & G & R & O & _).
  - simpl. tauto.
  - reflexivity.
  - reflexivity.
  - intros k ft Hin Hopt. simpl in Hin.
    repeat (destruct Hin as [Hin | Hin];
            [injection Hin as <- <-; first [discriminate Hopt | reflexivity] |]).
    contradiction.
  - exists id, db', d'. split; [exact I | split; [exact G | split]].
    + destruct (R "status" gameStatus) as (y & Hy & Hy');
        [simpl; tauto | reflexivity |].
      rewrite Hy'. rewrite <- Hy. reflexivity.
    + apply (O "winnerId" (v.optional (v.id "users"))); [simpl; tauto | reflexivity].
Defined.

(** ** Index lookups *)

(** The records a table holds are the rows stored under its name. *)
Lemma tableDocuments_storedIn (db : database) (tn : string) (d : document) :
  In d (tableDocuments db tn) <-> storedIn db tn d.
Proof.
  unfold tableDocuments, storedIn. rewrite in_map_iff. split.
  - intros (r & <- & Hr). apply filter_In in Hr as [Hr E].
    apply String.eqb_eq in E. exists r. now repeat split.
  - intros (r & Hr & E & ->). exists r. split; [reflexivity |].
    apply filter_In. split; [exact Hr | now apply String.eqb_eq].
Qed.

(** A lookup through a declared index with no more values than the index has
    fields succeeds and returns the records stored in the table whose key
    tuple under the index starts with the values given. *)
Lemma withIndex_spec (tn : string) (t : table) (iname : string)
    (keys : list string) (db : database) (key : list (option value)) :
  In (tn, t) appSchema -> In (iname, keys) (indexes t) ->
  (List.length key <= List.length keys)%nat ->
  exists rs,
    withIndex appSchema db tn iname key = Some rs /\
    forall d,
      In d rs <->
      storedIn db tn d /\ firstn (List.length key) (indexKey keys d) = key.
Proof.
  intros Ht Hi Hlen. unfold withIndex.
  rewrite (appSchema_table tn t Ht).
  rewrite (uniqueKeys_getField iname keys (indexes t)
             (appSchema_indexes_unique tn t Ht) Hi).
  apply Nat.leb_le in Hlen. rewrite Hlen.
  eexists. split; [reflexivity |].
  intros d. rewrite filter_In, key_eqb_eq, tableDocuments_storedIn. tauto.
Qed.

(** More values than the index has fields make the lookup fail. *)
Lemma withIndex_too_long (tn : string) (t : table) (iname : string)
    (keys : list string) (db : database) (key : list (option value)) :
  In (tn, t) appSchema -> In (iname, keys) (indexes t) ->
  (List.length keys < List.length key)%nat ->
  withIndex appSchema db tn iname key = None.
Proof.
  intros Ht Hi Hlen. unfold withIndex.
  rewrite (appSchema_table tn t Ht).
  rewrite (uniqueKeys_getField iname keys (indexes t)
             (appSchema_indexes_unique tn t Ht) Hi).
  apply Nat.leb_gt in Hlen. now rewrite Hlen.
Qed.





(** ** The root layout *)

(** C7, as stated: the children are mounted inside both provider scopes.
    For the page content ["page"] no mount lies inside the toast provider,
    which has no children at all. *)
Lemma toast_provider_wraps_nothing :
  wraps "ToastProvider" (RootLayout "inter" "page") = [] /\
  ~ (In "page" (wraps "ConvexClientProvider" (RootLayout "inter" "page")) /\
     In "page" (wraps "ToastProvider" (RootLayout "inter" "page"))).
Proof.
  split; [reflexivity |]. intros [_ []].
Qed.

(** C7, amended: whatever the children, the rendered tree mounts them once,
    inside html, body and the backend-client provider; the toast provider is
    mounted inside the backend-client provider as a sibling placed before the
    children, has no children of its own and wraps nothing. *)
Theorem root_layout_mounts_children (className : string) (A : Type)
    (children : A) :
  mounts (RootLayout className children)
    = [(children, ["html"; "body"; "ConvexClientProvider"])] /\
  wraps "ConvexClientProvider" (RootLayout className children) = [children] /\
  wraps "ToastProvider" (RootLayout className children) = [] /\
  childrenOf "ConvexClientProvider" (RootLayout className children)
    = [[Element "ToastProvider" [] []; Content children]] /\
  childrenOf "ToastProvider" (RootLayout className children) = [[]].
Proof.
  repeat split.
Qed.

(** ** Page metadata *)

Lemma applyTemplate_other (page : string) (c : ascii) (s : string) :
  Ascii.eqb c "%" = false ->
  applyTemplate page (String c s) = String c (applyTemplate page s).
Proof.
  intros H. destruct s as [| c' s']; simpl; [reflexivity |].
  now rewrite H.
Qed.

Lemma applyTemplate_placeholder (page s : string) :
  applyTemplate page (String "%" (String "s" s))
  = (page ++ applyTemplate page s)%string.
Proof. reflexivity. Qed.

Lemma applyTemplate_plain (page s : string) :
  hasPlaceholder s = false -> applyTemplate page s = s.
Proof.
  induction s as [| c rest IH]; [reflexivity |].
  destruct rest as [| c' rest']; [reflexivity |].
  intros H.
  change (hasPlaceholder (String c (String c' rest')))
    with ((Ascii.eqb c "%" && Ascii.eqb c' "s")
          || hasPlaceholder (String c' rest')) in H.
  apply orb_false_iff in H as [H1 H2].
  change (applyTemplate page (String c (String c' rest')))
    with (if Ascii.eqb c "%" && Ascii.eqb c' "s"
          then (page ++ applyTemplate page rest')%string
          else String c (applyTemplate page (String c' rest'))).
  rewrite H1. f_equal. now apply IH.
Qed.

(** C9: the metadata the layout exports has the site name as default title,
    the template [%s | <site name>] for page titles, the site description,
    and the favicon path [/favicon.ico]; put into the template, a page title
    is followed by [" | "] and the site name (for a site name that holds no
    [%s] of its own). *)
Theorem metadata_of_root_layout (siteConfig : SiteConfig.t) :
  Metadata.default (Metadata.title (metadata siteConfig))
    = SiteConfig.name siteConfig /\
  Metadata.template (Metadata.title (metadata siteConfig))
    = ("%s" ++ " | " ++ SiteConfig.name siteConfig)%string /\
  Metadata.description (metadata siteConfig)
    = SiteConfig.description siteConfig /\
  Metadata.icon (Metadata.icons (metadata siteConfig)) = "/favicon.ico" /\
  (forall page,
      hasPlaceholder (SiteConfig.name siteConfig) = false ->
      applyTemplate page (Metadata.template (Metadata.title (metadata siteConfig)))
      = (page ++ " | " ++ SiteConfig.name siteConfig)%string).
Proof.
  repeat split. intros page H.
  change (Metadata.template (Metadata.title (metadata siteConfig)))
    with (String "%" (String "s"
            (String " " (String "|" (String " " (SiteConfig.name siteConfig)))))).
  rewrite applyTemplate_placeholder.
  rewrite !applyTemplate_other by reflexivity.
  now rewrite (applyTemplate_plain page _ H).
Qed.

Lemma metadata_of_root_layout_witness :
  hasPlaceholder (SiteConfig.name sampleSite) = false /\
  applyTemplate "Games"
    (Metadata.template (Metadata.title (metadata sampleSite)))
  = "Games | Money Pool".
Proof.
  split; [reflexivity |].
  exact (proj2 (proj2 (proj2 (proj2 (metadata_of_root_layout sampleSite))))
           "Games" eq_refl).
Defined.

(** ** The schema as a whole *)

Lemma hasKey_In {A : Type} (k : string) (o : list (string * A)) :
  hasKey k o = true -> exists x, In (k, x) o.
Proof.
  unfold hasKey. destruct (getField k o) as [x |] eqn:E; [| discriminate].
  intros _. exists x. now apply getField_In.
Qed.

Lemma names_eqb_eq (a b : list string) : names_eqb a b = true <-> a = b.
Proof.
  revert b. induction a as [| x a IH]; intros [| y b]; simpl;
    try (split; congruence).
  rewrite andb_true_iff, String.eqb_eq, IH. split.
  - intros [-> ->]. reflexivity.
  - intros H. injection H as -> ->. now split.
Qed.

(** X1: every index of every table is keyed on one or two fields, each a
    field the table declares; the one exception is the audit log's time
    index, keyed on the creation time the store adds. *)
Theorem index_fields_are_declared (tn : string) (t : table) (iname : string)
    (keys : list string) :
  In (tn, t) appSchema -> In (iname, keys) (indexes t) ->
  (1 <= List.length keys <= 2)%nat /\
  (forall f, In f keys ->
     (exists ft, In (f, ft) (fields t)) \/
     (f = "_creationTime" /\ tn = "auditLogs" /\ iname = "by_creationTime")).
Proof.
  intros Ht Hi.
  assert (C : forallb
                (fun nt =>
                   forallb
                     (fun ik =>
                        (Nat.leb 1 (List.length (snd ik))
                         && Nat.leb (List.length (snd ik)) 2)
                        && forallb (indexFieldDeclared (fst nt) (snd nt) (fst ik))
                             (snd ik))
                     (indexes (snd nt)))
                appSchema = true) by reflexivity.
  rewrite forallb_forall in C. specialize (C _ Ht). cbn [fst snd] in C.
  rewrite forallb_forall in C. specialize (C _ Hi). cbn [fst snd] in C.
  apply andb_prop in C as [L F]. apply andb_prop in L as [L1 L2].
  apply Nat.leb_le in L1. apply Nat.leb_le in L2. split; [lia |].
  intros f Hf. rewrite forallb_forall in F. specialize (F f Hf).
  unfold indexFieldDeclared in F. apply orb_prop in F as [F | F].
  - left. now apply hasKey_In.
  - right. apply andb_prop in F as [F F3]. apply andb_prop in F as [F1 F2].
    apply String.eqb_eq in F1, F2, F3. now repeat split.
Qed.

Lemma index_fields_are_declared_witness :
  exists ft, In ("status", ft) (fields games).
Proof.
  destruct (index_fields_are_declared "games" games "by_tenantId_status"
              ["tenantId"; "status"]) as [_ F]; [simpl; tauto | simpl; tauto |].
  destruct (F "status") as [H | [H _]]; [simpl; tauto | exact H | discriminate H].
Defined.

(** X2: every table an id field refers to is a table of the schema or the
    file storage; the one exception is the audit log's resource link, which
    refers to a table named any that the schema does not declare. *)
Theorem id_targets_are_tables (tn : string) (t : table) (tbl : string) :
  In (tn, t) appSchema -> In tbl (tableIdTargets t) ->
  (exists target, In (tbl, target) appSchema) \/
  tbl = "_storage" \/
  (tbl = "any" /\ tn = "auditLogs" /\ getField "any" appSchema = None).
Proof.
  intros Ht Hin.
  assert (C : forallb
                (fun nt =>
                   forallb
                     (fun tbl =>
                        hasKey tbl appSchema || String.eqb tbl "_storage"
                        || (String.eqb tbl "any" && String.eqb (fst nt) "auditLogs"))
                     (tableIdTargets (snd nt)))
                appSchema = true) by reflexivity.
  rewrite forallb_forall in C. specialize (C _ Ht). cbn [fst snd] in C.
  rewrite forallb_forall in C. specialize (C _ Hin).
  apply orb_prop in C as [C | C]; [apply orb_prop in C as [C | C] |].
  - left. now apply hasKey_In.
  - right. left. now apply String.eqb_eq.
  - right. right. apply andb_prop in C as [C1 C2].
    apply String.eqb_eq in C1, C2. now repeat split.
Qed.

Lemma id_targets_are_tables_witness :
  exists target, In ("users", target) appSchema.
Proof.
  destruct (id_targets_are_tables "games" games "users") as [H | [H | [H _]]];
    [simpl; tauto | simpl; tauto | exact H | discriminate H | discriminate H].
Defined.

(** X3: the schema has fifteen enumerated fields, every one of them a
    required field, and a valid record of a table holds in each enumerated
    field one of the literals declared for it. *)
Theorem enumerated_fields_hold_a_literal :
  enumeratedFields appSchema =
    [ ("users", "role", roleNames);
      ("tenants", "status", ["Active"; "Suspended"; "Pending"]);
      ("employees", "role", roleNames);
      ("games", "status", gameStatusNames);
      ("wallets", "type", walletTypeNames);
      ("transactions", "type", transactionTypeNames);
      ("transactions", "status", transactionStatusNames);
      ("payments", "status", ["Pending"; "Verified"; "Rejected"]);
      ("notifications", "type", ["GameUpdate"; "Wallet"; "System"; "Marketing"]);
      ("notifications", "channel", ["InApp"; "Telegram"; "Email"]);
      ("auditLogs", "actorRole", roleNames);
      ("referralCampaigns", "status", ["Active"; "Paused"; "Completed"]);
      ("referralCampaigns", "rewardType", ["FlatAmount"; "Percentage"]);
      ("supportTickets", "status", ["Open"; "Pending"; "Closed"]);
      ("supportTickets", "priority", ["Low"; "Medium"; "High"]) ] /\
  (forall tn t k allowed d,
      In (tn, t) appSchema ->
      In (tn, k, allowed) (enumeratedFields appSchema) ->
      validateDocument t d = true ->
      fieldAmong d k allowed).
Proof.
  split; [reflexivity |].
  intros tn t k allowed d Ht He V.
  unfold enumeratedFields in He. apply in_flat_map in He as ([tn' t'] & Ht' & He).
  apply in_flat_map in He as ([k' ft] & Hk & He). simpl in He.
  destruct (isEnumeration ft) eqn:E; [| contradiction].
  destruct He as [He | []]. injection He as -> -> <-.
  pose proof (appSchema_table _ _ Ht) as Ht2.
  pose proof (appSchema_table _ _ Ht') as Ht3.
  rewrite Ht2 in Ht3. injection Ht3 as ->.
  exact (validateDocument_enumerated t' d k ft V Hk E).
Qed.

Lemma enumerated_fields_hold_a_literal_witness :
  fieldAmong (samplePayment "Verified") "status" ["Pending"; "Verified"; "Rejected"].
Proof.
  apply (proj2 enumerated_fields_hold_a_literal "payments" payments);
    [simpl; tauto | simpl; tauto | reflexivity].
Defined.

Lemma refersTo_optionalRef (t : table) (d : document) (k tbl : string)
    (ft : validator) :
  validateDocument t d = true -> In (k, ft) (fields t) ->
  refersTo tbl ft = true -> optionalRef d k tbl.
Proof.
  intros V Hk R. pose proof (validateDocument_field t d k ft V Hk) as F.
  unfold optionalRef. destruct (getField k d) as [y |]; [right | now left].
  assert (Hy : validate (v.id tbl) y = true).
  { destruct ft as [| | | | t0 | | | | | inner]; try discriminate R.
    - simpl in R. apply String.eqb_eq in R. now subst.
    - destruct inner; try discriminate R. simpl in R.
      apply String.eqb_eq in R. now subst. }
  apply validate_id in Hy as [key ->]. eauto.
Qed.

Lemma hasIndex_In (t : table) (iname : string) (keys : list string) :
  hasIndex t iname keys = true -> In (iname, keys) (indexes t).
Proof.
  unfold hasIndex. destruct (getField iname (indexes t)) as [ks |] eqn:E;
    [| discriminate].
  intros H. apply names_eqb_eq in H. subst. now apply getField_In.
Qed.

(** X4: twelve tables carry a tenant link (all but tenants and the platform
    settings); in each of them the link is an id of the tenants table,
    required or optional, the table keeps the index by_tenantId on it, and a
    valid record holds either no tenant or an id of the tenants table. *)
Theorem tenant_links_are_indexed :
  map fst (filter (fun nt => hasKey "tenantId" (fields (snd nt))) appSchema) =
    [ "users"; "employees"; "games"; "gameTemplates"; "wallets";
      "transactions"; "payments"; "notifications"; "auditLogs";
      "commissionOverrides"; "referralCampaigns"; "supportTickets" ] /\
  (forall tn t ft,
      In (tn, t) appSchema -> In ("tenantId", ft) (fields t) ->
      refersTo "tenants" ft = true /\
      In ("by_tenantId", ["tenantId"]) (indexes t) /\
      (forall d, validateDocument t d = true ->
         optionalRef d "tenantId" "tenants")).
Proof.
  split; [reflexivity |].
  intros tn t ft Ht Hf.
  assert (C : forallb
                (fun nt =>
                   forallb
                     (fun kf =>
                        negb (String.eqb (fst kf) "tenantId")
                        || (refersTo "tenants" (snd kf)
                            && hasIndex (snd nt) "by_tenantId" ["tenantId"]))
                     (fields (snd nt)))
                appSchema = true) by reflexivity.
  rewrite forallb_forall in C. specialize (C _ Ht). cbn [fst snd] in C.
  rewrite forallb_forall in C. specialize (C _ Hf). cbn [fst snd] in C.
  rewrite String.eqb_refl in C. simpl in C. apply andb_prop in C as [R I].
  split; [exact R | split; [now apply hasIndex_In |]].
  intros d V. exact (refersTo_optionalRef t d _ _ ft V Hf R).
Qed.

Lemma tenant_links_are_indexed_witness :
  optionalRef (sampleWallet "User") "tenantId" "tenants" /\
  optionalRef (samplePayment "Pending") "tenantId" "tenants".
Proof.
  split.
  - apply (proj2 tenant_links_are_indexed "wallets" wallets
             (v.optional (v.id "tenants"))); [simpl; tauto | simpl; tauto |].
    reflexivity.
  - apply (proj2 tenant_links_are_indexed "payments" payments (v.id "tenants"));
      [simpl; tauto | simpl; tauto |].
    reflexivity.
Defined.

(** X5: no table accepts a record that carries a field named like the
    identity or the creation time the store assigns: such a record fails the
    table's validation and its write is refused. *)
Theorem system_fields_cannot_be_written (tn : string) (t : table)
    (d : document) (k : string) (db : database) :
  In (tn, t) appSchema -> isSystemField k = true -> hasKey k d = true ->
  validateDocument t d = false /\ insert appSchema db tn d = None.
Proof.
  intros Ht Hs Hk.
  assert (V : validateDocument t d = false).
  { destruct (validateDocument t d) eqn:V; [| reflexivity].
    unfold hasKey in Hk. destruct (getField k d) as [x |] eqn:E; [| discriminate].
    apply (validateDocument_declared t d k x V) in E.
    apply hasKey_In in E as [ft Hft].
    rewrite (appSchema_no_system_field tn t k ft Ht Hft) in Hs. discriminate. }
  split; [exact V |].
  exact (insert_invalid appSchema db tn t d (appSchema_table tn t Ht) V).
Qed.

Lemma system_fields_cannot_be_written_witness :
  insert appSchema emptyDatabase "wallets"
    (sampleWallet "User" ++ [("_id", VId "wallets" 0)]) = None.
Proof.
  apply (system_fields_cannot_be_written "wallets" wallets _ "_id");
    [simpl; tauto | reflexivity | reflexivity].
Defined.

(** X6: the resource link of an audit log admits only ids of a table named
    any, which the schema does not declare; so the id that a successful write
    into any table of the schema returns is refused as the resource of an
    audit log. *)
Theorem audit_log_cannot_link_a_written_record (db db' : database)
    (tn : string) (t : table) (d : document) (id : value) (log : document) :
  In (tn, t) appSchema ->
  insert appSchema db tn d = Some (id, db') ->
  getField "resourceId" log = Some id ->
  validateDocument auditLogs log = false.
Proof.
  intros Ht I Hr. apply insert_inv in I as (_ & -> & _).
  destruct (validateDocument auditLogs log) eqn:V; [| reflexivity].
  destruct (validateDocument_optionalRef auditLogs log "resourceId" "any" V)
    as [H | [key H]]; [simpl; tauto | congruence |].
  rewrite Hr in H. injection H as -> _.
  apply appSchema_table in Ht. discriminate Ht.
Qed.

Lemma audit_log_cannot_link_a_written_record_witness :
  validateDocument auditLogs
    (sampleAuditLog [("resourceId", VId "games" 0)]) = false.
Proof.
  apply (audit_log_cannot_link_a_written_record emptyDatabase
           {| nextKey := 1; clock := 1;
              rows := [ {| rowTable := "games"; rowKey := 0;
                           rowCreationTime := 0;
                           rowFields := sampleGame (VId "tenants" 7) "Open" |} ] |}
           "games" games (sampleGame (VId "tenants" 7) "Open") (VId "games" 0));
    [simpl; tauto | reflexivity | reflexivity].
Defined.

(** X7: every index, and so each two-field one, has a companion index on
    its first field alone, and whatever a lookup through the index returns
    is also returned by the lookup through the companion with the first
    component of the key. *)
Theorem compound_index_refines_single (tn : string) (t : table)
    (iname : string) (f1 : string) (others : list string) :
  In (tn, t) appSchema -> In (iname, f1 :: others) (indexes t) ->
  exists single,
    In (single, [f1]) (indexes t) /\
    forall db a more rs,
      withIndex appSchema db tn iname (a :: more) = Some rs ->
      exists rs1,
        withIndex appSchema db tn single [a] = Some rs1 /\
        forall d, In d rs -> In d rs1.
Proof.
  intros Ht Hi.
  assert (C : forallb
                (fun nt =>
                   forallb
                     (fun ik =>
                        match snd ik with
                        | f :: _ => hasSingleIndex (snd nt) f
                        | [] => true
                        end)
                     (indexes (snd nt)))
                appSchema = true) by reflexivity.
  rewrite forallb_forall in C. specialize (C _ Ht). cbn [fst snd] in C.
  rewrite forallb_forall in C. specialize (C _ Hi). cbn [fst snd] in C.
  unfold hasSingleIndex in C. apply existsb_exists in C as ([single ks] & Hs & E).
  cbn [snd] in E. apply names_eqb_eq in E. subst ks.
  exists single. split; [exact Hs |].
  intros db a more rs Hq.
  destruct (le_lt_dec (List.length (a :: more)) (List.length (f1 :: others)))
    as [Hlen | Hlen].
  2: { rewrite (withIndex_too_long tn t iname (f1 :: others) db (a :: more)
                  Ht Hi Hlen) in Hq. discriminate Hq. }
  destruct (withIndex_spec tn t iname (f1 :: others) db (a :: more) Ht Hi Hlen)
    as (rs' & Hq' & Hspec).
  rewrite Hq in Hq'. injection Hq' as <-.
  destruct (withIndex_spec tn t single [f1] db [a] Ht Hs) as (rs1 & Hq1 & Hspec1);
    [simpl; lia |].
  exists rs1. split; [exact Hq1 |].
  intros d Hd. apply Hspec in Hd as [Hin Hkey]. apply Hspec1.
  split; [exact Hin |]. simpl in Hkey. injection Hkey as Ha _.
  simpl. now rewrite Ha.
Qed.

Lemma compound_index_refines_single_witness :
  exists single, In (single, ["ownerId"]) (indexes wallets).
Proof.
  destruct (compound_index_refines_single "wallets" wallets "by_ownerId_type"
              "ownerId" ["type"]) as (single & Hs & _);
    [simpl; tauto | simpl; tauto |].
  exists single. exact Hs.
Defined.

(** ** What validation does not look at *)

Lemma getField_renumber (f : Z -> Z) (k : string) (o : list (string * value)) :
  getField k (map (fun kv => (fst kv, renumber f (snd kv))) o)
  = option_map (renumber f) (getField k o).
Proof.
  induction o as [| [k' x] o IH]; simpl; [reflexivity |].
  destruct (String.eqb k k'); [reflexivity | exact IH].
Qed.

(** X8: validation never depends on the value of a number.  Replacing every
    number inside a value by any other number leaves the verdict of every
    validator, and so of every table, unchanged: the sign of an amount, the
    range of a rate, the order of two dates and the agreement of a counter
    with a list are outside what the schema checks. *)
Theorem validation_ignores_numbers (f : Z -> Z) :
  (forall t x, validate t (renumber f x) = validate t x) /\
  (forall t d, validateDocument t (renumberDocument f d) = validateDocument t d).
Proof.
  assert (A : forall t x, validate t (renumber f x) = validate t x).
  { induction t as [| | | | tbl | s | members IH | fs IH | element IH | inner IH]
      using validator_ind; intros x.
    - destruct x; reflexivity.
    - destruct x; reflexivity.
    - destruct x; reflexivity.
    - reflexivity.
    - destruct x; reflexivity.
    - destruct x; reflexivity.
    - simpl. induction IH as [| m ms Hm _ IHms]; [reflexivity |].
      simpl. now rewrite Hm, IHms.
    - destruct x as [| | | | | | o]; try reflexivity.
      simpl. f_equal.
      + induction IH as [| [k ft] rest Hft _ IHrest]; [reflexivity |].
        simpl. rewrite IHrest, getField_renumber. f_equal.
        destruct (getField k o) as [y |]; [apply Hft | reflexivity].
      + clear IH. induction o as [| [k x] o IHo]; [reflexivity |].
        simpl. now rewrite IHo.
    - destruct x as [| | | | | items |]; try reflexivity.
      simpl. induction items as [| y items IHitems]; [reflexivity |].
      simpl. now rewrite IH, IHitems.
    - simpl. apply IH. }
  split; [exact A |].
  intros t d. exact (A (v.object (fields t)) (VObject d)).
Qed.

(** ** The shape of valid records *)

Lemma validate_array (element : validator) (y : value) :
  validate (v.array element) y = true ->
  exists items, y = VArray items /\
    forall p, In p items -> validate element p = true.
Proof.
  destruct y as [| | | | | items |]; try discriminate. simpl. intros H.
  exists items. split; [reflexivity |]. now apply forallb_forall.
Qed.

Lemma validate_object (fs : list (string * validator)) (y : value) :
  validate (v.object fs) y = true ->
  exists o, y = VObject o /\ validateDocument (defineTable fs) o = true.
Proof.
  destruct y as [| | | | | | o]; try discriminate. intros H.
  exists o. split; [reflexivity | exact H].
Qed.

Lemma validateDocument_number (t : table) (d : document) (k : string) :
  validateDocument t d = true -> In (k, v.number) (fields t) -> numberField d k.
Proof.
  intros V Hk.
  destruct (validateDocument_required t d k v.number V Hk eq_refl)
    as (y & Hy & Hv).
  destruct y; try discriminate. unfold numberField. eauto.
Qed.

Lemma validateDocument_ref (t : table) (d : document) (k tbl : string) :
  validateDocument t d = true -> In (k, v.id tbl) (fields t) ->
  references d k tbl.
Proof.
  intros V Hk.
  destruct (validateDocument_required t d k (v.id tbl) V Hk eq_refl)
    as (y & Hy & Hv).
  apply validate_id in Hv as [key ->]. now exists key.
Qed.

Lemma validateDocument_optional (t : table) (d : document) (k : string)
    (ft : validator) :
  validateDocument t d = true -> In (k, v.optional ft) (fields t) ->
  optionalField d k ft.
Proof.
  intros V Hk. pose proof (validateDocument_field t d k _ V Hk) as F.
  unfold optionalField. destruct (getField k d) as [y |]; [right | now left].
  exists y. now split.
Qed.

Lemma validateDocument_names (t : table) (d : document) (k : string)
    (x : value) :
  validateDocument t d = true -> getField k d = Some x ->
  In k (map fst (fields t)).
Proof.
  intros V Hk. apply (validateDocument_declared t d k x V) in Hk.
  apply hasKey_In in Hk as [ft Hft]. apply in_map_iff. now exists (k, ft).
Qed.

(** X9: the participants of a valid game are an array of objects, each with
    the id of a user, a numeric selected number and joining time, an optional
    boolean winner flag, and no other field. *)
Theorem game_participants_shape (d : document) :
  validateDocument games d = true ->
  exists ps,
    getField "participants" d = Some (VArray ps) /\
    forall p, In p ps ->
      exists o,
        p = VObject o /\
        references o "userId" "users" /\
        numberField o "selectedNumber" /\
        numberField o "joinedAt" /\
        optionalField o "isWinner" v.boolean /\
        (forall k x, getField k o = Some x ->
           In k ["userId"; "selectedNumber"; "joinedAt"; "isWinner"]).
Proof.
  intros V.
  destruct (validateDocument_required games d "participants"
              (v.array
                 (v.object
                    [ ("userId", v.id "users");
                      ("selectedNumber", v.number);
                      ("joinedAt", v.number);
                      ("isWinner", v.optional v.boolean) ])) V)
    as (y & Hy & Hv); [simpl; tauto | reflexivity |].
  apply validate_array in Hv as (ps & -> & Hps).
  exists ps. split; [exact Hy |].
  intros p Hp. apply Hps in Hp. apply validate_object in Hp as (o & -> & Vo).
  exists o. split; [reflexivity |].
  split; [apply (validateDocument_ref _ o _ _ Vo); simpl; tauto |].
  split; [apply (validateDocument_number _ o _ Vo); simpl; tauto |].
  split; [apply (validateDocument_number _ o _ Vo); simpl; tauto |].
  split; [apply (validateDocument_optional _ o _ _ Vo); simpl; tauto |].
  intros k x Hk. exact (validateDocument_names _ o k x Vo Hk).
Qed.

Lemma game_participants_shape_witness :
  validateDocument games
    (sampleRound 5 [sampleParticipant 1 3; sampleParticipant 2 8]) = true /\
  exists ps,
    getField "participants"
      (sampleRound 5 [sampleParticipant 1 3; sampleParticipant 2 8])
    = Some (VArray ps) /\
    forall p, In p ps -> exists o, p = VObject o /\ references o "userId" "users".
Proof.
  split; [reflexivity |].
  destruct (game_participants_shape
              (sampleRound 5 [sampleParticipant 1 3; sampleParticipant 2 8])
              eq_refl) as (ps & Hps & Hall).
  exists ps. split; [exact Hps |].
  intros p Hp. destruct (Hall p Hp) as (o & Ho & Hu & _).
  exists o. now split.
Defined.

(** X10: the settings of a valid tenant are an object with a numeric
    commission rate, an optional payment provider name, an optional provider
    configuration that may be any value, and no other field; the tenant's
    status is one of Active, Suspended and Pending. *)
Theorem tenant_settings_shape :
  (forall d, validateDocument tenants d = true ->
     fieldAmong d "status" ["Active"; "Suspended"; "Pending"] /\
     exists o,
       getField "settings" d = Some (VObject o) /\
       numberField o "commissionRate" /\
       optionalField o "paymentProvider" v.string /\
       (forall k x, getField k o = Some x ->
          In k ["commissionRate"; "paymentProvider"; "paymentProviderConfig"])) /\
  (forall config : value,
     validateDocument tenants
       (sampleTenant [("paymentProviderConfig", config)]) = true) /\
  (forall (k : string) (x : value),
     ~ In k ["commissionRate"; "paymentProvider"; "paymentProviderConfig"] ->
     validateDocument tenants (sampleTenant [(k, x)]) = false).
Proof.
  split; [| split].
  - intros d V. split.
    + apply (validateDocument_enumerated tenants d "status"
               (v.union [ v.literal "Active"; v.literal "Suspended";
                          v.literal "Pending" ]) V);
        [simpl; tauto | reflexivity].
    + destruct (validateDocument_required tenants d "settings"
                  (v.object
                     [ ("commissionRate", v.number);
                       ("paymentProvider", v.optional v.string);
                       ("paymentProviderConfig", v.optional v.any) ]) V)
        as (y & Hy & Hv); [simpl; tauto | reflexivity |].
      apply validate_object in Hv as (o & -> & Vo).
      exists o. split; [exact Hy |].
      split; [apply (validateDocument_number _ o _ Vo); simpl; tauto |].
      split; [apply (validateDocument_optional _ o _ _ Vo); simpl; tauto |].
      intros k x Hk. exact (validateDocument_names _ o k x Vo Hk).
  - intros config. reflexivity.
  - intros k x Hk.
    destruct (validateDocument tenants (sampleTenant [(k, x)])) eqn:V;
      [| reflexivity].
    destruct (validateDocument_required tenants _ "settings"
                (v.object
                   [ ("commissionRate", v.number);
                     ("paymentProvider", v.optional v.string);
                     ("paymentProviderConfig", v.optional v.any) ]) V)
      as (y & Hy & Hv); [simpl; tauto | reflexivity |].
    injection Hy as <-. apply validate_object in Hv as (o & Ho & Vo).
    injection Ho as <-.
    assert (G : exists x', getField k
                  [("commissionRate", VNumber 5); (k, x)] = Some x').
    { simpl. destruct (String.eqb k "commissionRate"); [eauto |].
      rewrite String.eqb_refl. eauto. }
    destruct G as [x' G].
    destruct (Hk (validateDocument_names _ _ k x' Vo G)).
Qed.

Lemma tenant_settings_shape_witness :
  validateDocument tenants
    (sampleTenant [("paymentProvider", VString "Stripe")]) = true /\
  validateDocument tenants (sampleTenant [("currency", VString "ETB")]) = false.
Proof.
  destruct tenant_settings_shape as (_ & _ & R).
  split; [reflexivity |].
  apply R. simpl. intros [H | [H | [H | []]]]; discriminate H.
Defined.

(** X11: a valid payment refers to a user, a tenant and a stored screenshot,
    has a numeric amount and one of three statuses; the verifier, the
    verification time and the notes are optional whatever the status, so a
    payment marked Verified that names no verifier is accepted. *)
Theorem payment_shape :
  (forall d, validateDocument payments d = true ->
     references d "userId" "users" /\
     references d "tenantId" "tenants" /\
     references d "screenshotId" "_storage" /\
     numberField d "amount" /\
     fieldAmong d "status" ["Pending"; "Verified"; "Rejected"] /\
     optionalRef d "verifiedBy" "users" /\
     optionalField d "verifiedAt" v.number /\
     optionalField d "verificationNotes" v.string) /\
  (forall status, In status ["Pending"; "Verified"; "Rejected"] ->
     validateDocument payments (samplePayment status) = true /\
     getField "verifiedBy" (samplePayment status) = None /\
     getField "verifiedAt" (samplePayment status) = None).
Proof.
  split.
  - intros d V.
    split; [apply (validateDocument_ref payments d _ _ V); simpl; tauto |].
    split; [apply (validateDocument_ref payments d _ _ V); simpl; tauto |].
    split; [apply (validateDocument_ref payments d _ _ V); simpl; tauto |].
    split; [apply (validateDocument_number payments d _ V); simpl; tauto |].
    split.
    { apply (validateDocument_enumerated payments d "status"
               paymentRequestStatus V); [simpl; tauto | reflexivity]. }
    split; [apply (validateDocument_optionalRef payments d _ _ V); simpl; tauto |].
    split; apply (validateDocument_optional payments d _ _ V); simpl; tauto.
  - intros status [<- | [<- | [<- | []]]]; repeat split.
Qed.

Lemma payment_shape_witness :
  validateDocument payments (samplePayment "Verified") = true /\
  references (samplePayment "Verified") "screenshotId" "_storage" /\
  getField "verifiedBy" (samplePayment "Verified") = None.
Proof.
  destruct payment_shape as [S F].
  split; [reflexivity | split].
  - exact (proj1 (proj2 (proj2 (S (samplePayment "Verified") eq_refl)))).
  - apply (F "Verified"). simpl. tauto.
Defined.

(** X12: the replies of a valid support ticket are an array of objects, each
    with the id of a user, a message and a numeric timestamp; the assignee is
    optional and a user when present; the attachments are optional and,
    when present, an array of stored-file ids. *)
Theorem support_ticket_shape (d : document) :
  validateDocument supportTickets d = true ->
  (exists rs,
      getField "replies" d = Some (VArray rs) /\
      forall r, In r rs ->
        exists o,
          r = VObject o /\
          references o "userId" "users" /\
          numberField o "timestamp" /\
          (exists m, getField "message" o = Some m /\ validate v.string m = true) /\
          (forall k x, getField k o = Some x ->
             In k ["userId"; "message"; "timestamp"])) /\
  optionalRef d "assignedTo" "users" /\
  (getField "attachments" d = None \/
   exists files,
     getField "attachments" d = Some (VArray files) /\
     forall f, In f files -> exists key, f = VId "_storage" key) /\
  fieldAmong d "status" ["Open"; "Pending"; "Closed"] /\
  fieldAmong d "priority" ["Low"; "Medium"; "High"].
Proof.
  intros V. split; [| split; [| split; [| split]]].
  - destruct (validateDocument_required supportTickets d "replies"
                (v.array
                   (v.object
                      [ ("userId", v.id "users");
                        ("message", v.string);
                        ("timestamp", v.number) ])) V)
      as (y & Hy & Hv); [simpl; tauto | reflexivity |].
    apply validate_array in Hv as (rs & -> & Hrs).
    exists rs. split; [exact Hy |].
    intros r Hr. apply Hrs in Hr. apply validate_object in Hr as (o & -> & Vo).
    exists o. split; [reflexivity |].
    split; [apply (validateDocument_ref _ o _ _ Vo); simpl; tauto |].
    split; [apply (validateDocument_number _ o _ Vo); simpl; tauto |].
    split.
    + apply (validateDocument_required _ o "message" v.string Vo);
        [simpl; tauto | reflexivity].
    + intros k x Hk. exact (validateDocument_names _ o k x Vo Hk).
  - apply (validateDocument_optionalRef supportTickets d _ _ V). simpl. tauto.
  - destruct (validateDocument_optional supportTickets d "attachments"
                (v.array (v.id "_storage")) V) as [H | (y & Hy & Hv)];
      [simpl; tauto | now left | right].
    apply validate_array in Hv as (files & -> & Hfiles).
    exists files. split; [exact Hy |].
    intros f Hf. apply validate_id. now apply Hfiles.
  - apply (validateDocument_enumerated supportTickets d "status"
             (v.union [ v.literal "Open"; v.literal "Pending";
                        v.literal "Closed" ]) V);
      [simpl; tauto | reflexivity].
  - apply (validateDocument_enumerated supportTickets d "priority"
             (v.union [ v.literal "Low"; v.literal "Medium";
                        v.literal "High" ]) V);
      [simpl; tauto | reflexivity].
Qed.

Lemma support_ticket_shape_witness :
  validateDocument supportTickets
    (sampleTicket
       [ VObject [ ("userId", VId "users" 2);
                   ("message", VString "On its way");
                   ("timestamp", VNumber 1700000100) ] ]) = true /\
  optionalRef
    (sampleTicket
       [ VObject [ ("userId", VId "users" 2);
                   ("message", VString "On its way");
                   ("timestamp", VNumber 1700000100) ] ])
    "assignedTo" "users".
Proof.
  split; [reflexivity |].
  exact (proj1 (proj2
           (support_ticket_shape
              (sampleTicket
                 [ VObject [ ("userId", VId "users" 2);
                             ("message", VString "On its way");
                             ("timestamp", VNumber 1700000100) ] ])
              eq_refl))).
Defined.

(** X13: every table has a required field, so no table accepts the empty
    record and its write is refused. *)
Theorem empty_record_is_rejected (tn : string) (t : table) (db : database) :
  In (tn, t) appSchema ->
  existsb (fun kf => negb (isOptional (snd kf))) (fields t) = true /\
  validateDocument t [] = false /\
  insert appSchema db tn [] = None.
Proof.
  intros Ht.
  assert (C : forallb
                (fun nt =>
                   existsb (fun kf => negb (isOptional (snd kf))) (fields (snd nt))
                   && negb (validateDocument (snd nt) []))
                appSchema = true) by reflexivity.
  rewrite forallb_forall in C. specialize (C _ Ht). cbn [fst snd] in C.
  apply andb_prop in C as [R V]. apply negb_true_iff in V.
  split; [exact R | split; [exact V |]].
  exact (insert_invalid appSchema db tn t [] (appSchema_table tn t Ht) V).
Qed.

Lemma empty_record_is_rejected_witness :
  insert appSchema emptyDatabase "platformSettings" [] = None.
Proof.
  apply (empty_record_is_rejected "platformSettings" platformSettings);
    simpl; tauto.
Defined.
